(** * The language-component widgets of [app/ui/language.py]

    A shallow embedding of the widget tree of the drag-and-drop script
    editor: the factory [LanguageWidgetFactory.build], the [model()] method of
    every widget, the gaps ([GapWidget] and its four subclasses), the
    append-only lists ([CommandSequenceWidget], [ActWidget]) and
    [setReadOnly].

    Widgets are Python objects owned by exactly one parent, so the tree of
    objects is a tree of values here; a method that mutates [self] takes the
    old state of [self] and returns the new one.  Calls into Qt that change
    what is on screen, and the [ScriptChangeEvent]s posted to the
    application, are recorded in a trace. *)

From Stdlib Require Import String Ascii List ZArith Bool Lia DecimalString.
From Stdlib Require Import DecimalZ DecimalPos.
Import ListNotations.
Open Scope string_scope.
Open Scope list_scope.
Open Scope Z_scope.
Set Warnings "-register-all".

(** ** Python values the module gets from elsewhere *)

(** [language.NumberValue] is defined in [app.models.language], which this
    file only imports.  What its [value] holds, the text a [QLineEdit]
    shows for it and the number Python's [float()] reads from a text are
    taken as parameters. *)
Class PyNumber : Type := {
  number : Type;
  number_text : number -> string;
  float : string -> option number
}.

(** Whole numbers written in decimal: an instance on which the model runs. *)
Definition whole_text (z : Z) : string := NilZero.string_of_int (Z.to_int z).

Definition whole_float (s : string) : option Z :=
  option_map Z.of_int (NilZero.int_of_string s).

Definition whole_numbers : PyNumber :=
  {| number := Z; number_text := whole_text; float := whole_float |}.

(** Exceptions raised by the module or by the Python operations it uses. *)
Inductive Exn : Type :=
| AssertionError
| KeyError (key : string)
| RuntimeError (msg : string)
| ValueError
| TypeError
| AttributeError (attr : string).

Inductive result (A : Type) : Type :=
| Return (a : A)
| Raise (e : Exn).
Arguments Return {A} a.
Arguments Raise {A} e.

Definition rbind {A B : Type} (m : result A) (k : A -> result B) : result B :=
  match m with
  | Return a => k a
  | Raise e => Raise e
  end.

Declare Scope res_scope.
Delimit Scope res_scope with res.
Notation "x <- m ;; k" := (rbind m (fun x => k))
  (at level 61, m at next level, right associativity) : res_scope.

(** [map(lambda w: w.model(), ws)]: left to right, the first exception wins. *)
Definition mapR {A B : Type} (f : A -> result B) : list A -> result (list B) :=
  fix go (l : list A) : result (list B) :=
    match l with
    | [] => Return []
    | a :: l' => (b <- f a ;; bs <- go l' ;; Return (b :: bs))%res
    end.

Definition newline : string := String (ascii_of_nat 10) EmptyString.

(** [s.partition("\n")]: the text before the first newline and the text
    after it; the whole text and the empty text when there is none. *)
Fixpoint partition_newline (s : string) : string * string :=
  match s with
  | EmptyString => (EmptyString, EmptyString)
  | String c s' =>
      if Ascii.eqb c (ascii_of_nat 10) then (EmptyString, s')
      else let (before, after) := partition_newline s' in (String c before, after)
  end.

(** ** Qt controls, as far as the module uses them *)

Record QLineEdit : Type := {
  text : string;
  isReadOnly : bool
}.

(** [QLineEdit(contents, parent)]. *)
Definition QLineEdit_new (contents : string) : QLineEdit :=
  {| text := contents; isReadOnly := false |}.

Definition QLineEdit_setReadOnly (ro : bool) (e : QLineEdit) : QLineEdit :=
  {| text := text e; isReadOnly := ro |}.

Record QComboBox : Type := {
  items : list string;
  currentIndex : Z
}.

Definition QComboBox_new : QComboBox := {| items := []; currentIndex := -1 |}.

(** [addItem]: the first item added to an empty box becomes the current one. *)
Definition addItem (s : string) (c : QComboBox) : QComboBox :=
  {| items := items c ++ [s];
     currentIndex := match items c with [] => 0 | _ => currentIndex c end |}.

Fixpoint findText_from (i : Z) (s : string) (l : list string) : Z :=
  match l with
  | [] => -1
  | x :: l' => if String.eqb x s then i else findText_from (i + 1) s l'
  end.

(** [findText]: the index of the first item with that text, or -1. *)
Definition findText (s : string) (c : QComboBox) : Z := findText_from 0 s (items c).

(** [setCurrentIndex]: an index outside the items leaves nothing selected. *)
Definition setCurrentIndex (i : Z) (c : QComboBox) : QComboBox :=
  {| items := items c;
     currentIndex := if (0 <=? i) && (i <? Z.of_nat (length (items c))) then i else -1 |}.

(** [currentText]: the empty text when nothing is selected. *)
Definition currentText (c : QComboBox) : string :=
  if (0 <=? currentIndex c) && (currentIndex c <? Z.of_nat (length (items c)))
  then nth (Z.to_nat (currentIndex c)) (items c) EmptyString
  else EmptyString.

Definition addItems (l : list string) (c : QComboBox) : QComboBox :=
  fold_left (fun c s => addItem s c) l c.

(** What a [QBoxLayout] holds: spacings, stretches and widgets.  A child
    widget is named by its position in the owner's list of children, the
    gap of the list by [GapItem]. *)
Inductive LayoutItem : Type :=
| Spacing (size : Z)
| Stretch (factor : Z)
| GapItem
| ChildItem (i : nat).

Definition is_GapItem (it : LayoutItem) : bool :=
  match it with GapItem => true | _ => false end.

Fixpoint indexOf_from (i : Z) (l : list LayoutItem) : Z :=
  match l with
  | [] => -1
  | it :: l' => if is_GapItem it then i else indexOf_from (i + 1) l'
  end.

(** [layout.indexOf(self._gap)]. *)
Definition indexOf_gap (l : list LayoutItem) : Z := indexOf_from 0 l.

(** [layout.insertWidget(index, widget)]: a negative index adds at the end. *)
Definition insertWidget_at (i : Z) (it : LayoutItem) (l : list LayoutItem) : list LayoutItem :=
  if (i <? 0) || (Z.of_nat (length l) <? i) then l ++ [it]
  else firstn (Z.to_nat i) l ++ it :: skipn (Z.to_nat i) l.

Definition LC_MIME_FORMAT : string := "application/x-language-component".

(** # TODO: Use live variables. *)
Definition VARIABLE_NAMES : list string :=
  ["item"; "curr_video"; "curr_duration"; "curr_offset"].

(** ** Widget state that does not depend on the language *)

(** The four subclasses of [GapWidget]. *)
Inductive GapFlavor : Type :=
| NumberGapWidget
| TextGapWidget
| VideoGapWidget
| VideoCollectionGapWidget.

(** A [GapWidget]: [_child] is [None] or the widget that fills the gap. *)
Record GapWidget (W : Type) : Type := mkGap {
  flavor : GapFlavor;
  _child : option W;
  _readOnly : bool
}.
Arguments mkGap {W} flavor _child _readOnly.
Arguments flavor {W} g.
Arguments _child {W} g.
Arguments _readOnly {W} g.

(** The two subclasses of [ListGapWidget]. *)
Inductive ListGapFlavor : Type :=
| CommandGapWidget
| SceneGapWidget.

Record ListGapWidget : Type := mkListGap {
  list_flavor : ListGapFlavor;
  list_readOnly : bool
}.

(** The state shared by [CommandSequenceWidget] ([_commands], [_gap],
    [_layout]) and [ActWidget] ([_scenes], [_gap], [_layout]). *)
Record ListState (W : Type) : Type := mkList {
  _elements : list W;
  _gap : ListGapWidget;
  _layout : list LayoutItem
}.
Arguments mkList {W} _elements _gap _layout.
Arguments _elements {W} l.
Arguments _gap {W} l.
Arguments _layout {W} l.

Section Language.

Context {py : PyNumber}.

(** ** The language model, [app.models.language] *)

(** Modelled from the spec: the classes of [app.models.language], which is
    imported and not part of this file.  The constructors and their fields
    are the ones the module reads and builds. *)
Inductive LanguageComponent : Type :=
| NumberGap
| TextGap
| VideoGap
| VideoCollectionGap
| NumberValue (value : number)
| Add (op1 op2 : LanguageComponent)
| Subtract (op1 op2 : LanguageComponent)
| Multiply (op1 op2 : LanguageComponent)
| TextValue (value : string)
| VideoValue (value : string)
| GetVariableExpression (name : string)
| SetVariableStatement (name : string) (value : LanguageComponent)
| CommandSequence (commands : list LanguageComponent)
| TextScene (title comment : string) (duration pre_commands post_commands text : LanguageComponent)
| VideoScene (title comment : string)
    (duration pre_commands post_commands offset source : LanguageComponent)
| YoutubeVideoGetTitle (video : LanguageComponent)
| YoutubeVideoGetRelated (video : LanguageComponent)
| YoutubeVideoCollectionRandom (video_collection : LanguageComponent)
| Act (scenes : list LanguageComponent).

(** The abstract classes the module tests membership of with [isinstance]. *)
Inductive Category : Type :=
| NumberExpression
| TextExpression
| VideoExpression
| VideoCollectionExpression
| Statement
| Scene
| Gap.

Definition Category_eqb (a b : Category) : bool :=
  match a, b with
  | NumberExpression, NumberExpression
  | TextExpression, TextExpression
  | VideoExpression, VideoExpression
  | VideoCollectionExpression, VideoCollectionExpression
  | Statement, Statement
  | Scene, Scene
  | Gap, Gap => true
  | _, _ => false
  end.

(** Modelled from the spec: the abstract classes each component derives
    from.  A gap belongs to the family it stands for and to [Gap]; getting
    and setting a variable are statements; the YouTube operations produce a
    text, a collection of videos and a video. *)
Definition categories (lc : LanguageComponent) : list Category :=
  match lc with
  | NumberGap => [NumberExpression; Gap]
  | TextGap => [TextExpression; Gap]
  | VideoGap => [VideoExpression; Gap]
  | VideoCollectionGap => [VideoCollectionExpression; Gap]
  | NumberValue _ | Add _ _ | Subtract _ _ | Multiply _ _ => [NumberExpression]
  | TextValue _ => [TextExpression]
  | VideoValue _ => [VideoExpression]
  | GetVariableExpression _ => [Statement]
  | SetVariableStatement _ _ => [Statement]
  | CommandSequence _ => []
  | TextScene _ _ _ _ _ _ => [Scene]
  | VideoScene _ _ _ _ _ _ _ => [Scene]
  | YoutubeVideoGetTitle _ => [TextExpression]
  | YoutubeVideoGetRelated _ => [VideoCollectionExpression]
  | YoutubeVideoCollectionRandom _ => [VideoExpression]
  | Act _ => []
  end.

Definition isinstance (lc : LanguageComponent) (k : Category) : bool :=
  existsb (Category_eqb k) (categories lc).

(** [lc.__class__], the key that the registry of the factory is looked up
    with.  The class is identified by its bare name; this is not the text
    that Python prints for a class object. *)
Definition class_name (lc : LanguageComponent) : string :=
  match lc with
  | NumberGap => "NumberGap"
  | TextGap => "TextGap"
  | VideoGap => "VideoGap"
  | VideoCollectionGap => "VideoCollectionGap"
  | NumberValue _ => "NumberValue"
  | Add _ _ => "Add"
  | Subtract _ _ => "Subtract"
  | Multiply _ _ => "Multiply"
  | TextValue _ => "TextValue"
  | VideoValue _ => "VideoValue"
  | GetVariableExpression _ => "GetVariableExpression"
  | SetVariableStatement _ _ => "SetVariableStatement"
  | CommandSequence _ => "CommandSequence"
  | TextScene _ _ _ _ _ _ => "TextScene"
  | VideoScene _ _ _ _ _ _ _ => "VideoScene"
  | YoutubeVideoGetTitle _ => "YoutubeVideoGetTitle"
  | YoutubeVideoGetRelated _ => "YoutubeVideoGetRelated"
  | YoutubeVideoCollectionRandom _ => "YoutubeVideoCollectionRandom"
  | Act _ => "Act"
  end.

(** ** The widgets *)

(** One constructor per widget class that the factory builds; the fields
    are the attributes the class keeps. *)
Inductive Widget : Type :=
| NumberValueWidget (_number : QLineEdit)
| TextValueWidget (_text : QLineEdit)
| VideoValueWidget (_value : QLineEdit)
| NumberOperatorWidget (_operand1 : GapWidget Widget) (_operator : QComboBox)
    (_operand2 : GapWidget Widget)
| GetWidget (_name : QComboBox)
| SetWidget (_name : QComboBox) (_value : GapWidget Widget)
| CommandSequenceWidget (_state : ListState Widget)
| TextSceneWidget (_comment : string) (_preCommands _postCommands : Widget)
    (_text _duration : GapWidget Widget)
| VideoSceneWidget (_comment : string) (_preCommands _postCommands : Widget)
    (_source _duration _offset : GapWidget Widget)
| YoutubeVideoGetTitleWidget (_video : GapWidget Widget)
| YoutubeVideoGetRelatedWidget (_video : GapWidget Widget)
| YoutubeVideoCollectionRandomWidget (_videoCollection : GapWidget Widget)
| ActWidget (_state : ListState Widget).

(** The widget a [ScriptChangeEvent] is posted to. *)
Inductive Receiver : Type :=
| ToGap (f : GapFlavor)
| ToCommandSequence
| ToAct.

(** What a method does to the screen and to the event queue. *)
Inductive Effect : Type :=
| removeWidget (w : Widget)
| setParentNone (w : Widget)
| insertWidget (index : Z) (w : Widget)
| setCurrentPage (index : Z)
| layoutInsertWidget (index : Z) (w : Widget)
| postScriptChangeEvent (self : Receiver).

(** A constructor call: the effects it had, then the object or the
    exception. *)
Definition M (A : Type) : Type := (list Effect * result A)%type.

Definition ret {A : Type} (a : A) : M A := ([], Return a).

Definition raise {A : Type} (e : Exn) : M A := ([], Raise e).

Definition bind {A B : Type} (m : M A) (k : A -> M B) : M B :=
  match m with
  | (t, Return a) => let (t', r) := k a in (t ++ t', r)
  | (t, Raise e) => (t, Raise e)
  end.

(** A method call on a mutable [self]: the new state of [self] (also when
    the call raises), the effects, and the value or the exception. *)
Definition Method (S A : Type) : Type := S -> S * M A.

Definition mret {S A : Type} (a : A) : Method S A := fun s => (s, ret a).

Definition mraise {S A : Type} (e : Exn) : Method S A := fun s => (s, raise e).

Definition mbind {S A B : Type} (m : Method S A) (k : A -> Method S B) : Method S B :=
  fun s =>
    match m s with
    | (s1, (t, Return a)) => let '(s2, (t', r)) := k a s1 in (s2, (t ++ t', r))
    | (s1, (t, Raise e)) => (s1, (t, Raise e))
    end.

(** An effect of the method. *)
Definition tell {S : Type} (e : Effect) : Method S unit := fun s => (s, ([e], Return tt)).

(** Read and write the attributes of [self]. *)
Definition get {S : Type} : Method S S := fun s => (s, ret s).

Definition put {S : Type} (s' : S) : Method S unit := fun _ => (s', ret tt).

(** A constructor or a call that does not touch [self]. *)
Definition call {S A : Type} (m : M A) : Method S A := fun s => (s, m).

End Language.

Declare Scope eff_scope.
Delimit Scope eff_scope with eff.
Notation "x <- m ;; k" := (bind m (fun x => k))
  (at level 61, m at next level, right associativity) : eff_scope.

Declare Scope meth_scope.
Delimit Scope meth_scope with meth.
Notation "x <- m ;; k" := (mbind m (fun x => k))
  (at level 61, m at next level, right associativity) : meth_scope.
Notation "m ;; k" := (mbind m (fun _ => k))
  (at level 61, right associativity) : meth_scope.

Section Methods.

Context {py : PyNumber}.

(** [for x in xs: body(x)]. *)
Definition for_each {S A : Type} (body : A -> Method S unit) : list A -> Method S unit :=
  fix go (l : list A) : Method S unit :=
    match l with
    | [] => mret tt
    | a :: l' => (body a ;; go l')%meth
    end.

(** The object a constructor returns: its state after the body ran. *)
Definition construct {S : Type} (init : S) (body : Method S unit) : M S :=
  let (self, m) := body init in
  (_ <- m ;; ret self)%eff.

(** ** [GapWidget] *)

Definition isFull (self : GapWidget Widget) : bool :=
  match _child self with
  | Some _ => true
  | None => false
  end.

Definition set_child (c : option Widget) (self : GapWidget Widget) : GapWidget Widget :=
  mkGap (flavor self) c (_readOnly self).

(** [ChangeableMixin._postScriptChangeEvent], called on a gap. *)
Definition Gap_postScriptChangeEvent : Method (GapWidget Widget) unit :=
  (self <- get ;; tell (postScriptChangeEvent (ToGap (flavor self))))%meth.

(** [GapWidget._emptyGap].  Both callers test [isFull] first; on an empty
    gap [self._child.setParent] is looked up on [None]. *)
Definition _emptyGap : Method (GapWidget Widget) unit :=
  (self <- get ;;
   match _child self with
   | Some w =>
       tell (removeWidget w) ;;
       tell (setParentNone w) ;;
       put (set_child None self)
   | None => mraise (AttributeError "setParent")
   end)%meth.

(** [GapWidget.emptyGap]. *)
Definition emptyGap : Method (GapWidget Widget) unit :=
  (self <- get ;;
   if negb (isFull self) then mraise (RuntimeError "Gap is currently not occupied.")
   else _emptyGap ;; Gap_postScriptChangeEvent)%meth.

(** [GapWidget.fillGap], with the factory it calls as an argument. *)
Definition fillGap_ (build : LanguageComponent -> M Widget) (child : LanguageComponent)
  : Method (GapWidget Widget) unit :=
  (self <- get ;;
   (if isFull self then _emptyGap else mret tt) ;;
   (if negb (isinstance child Gap) then
      w <- call (build child) ;;
      self <- get ;;
      put (set_child (Some w) self) ;;
      tell (insertWidget 1 w) ;;
      tell (setCurrentPage 1)
    else mret tt) ;;
   Gap_postScriptChangeEvent)%meth.

(** [GapWidget.__init__], reached through the constructor of one of the
    four subclasses, which then only adds the label shown when empty. *)
Definition GapWidget_init_ (build : LanguageComponent -> M Widget) (f : GapFlavor)
    (child : LanguageComponent) : M (GapWidget Widget) :=
  construct (mkGap f None false) (fillGap_ build child).

(** [GapWidget.setReadOnly]. *)
Definition Gap_setReadOnly (ro : bool) (self : GapWidget Widget) : GapWidget Widget :=
  mkGap (flavor self) (_child self) ro.

(** [isAcceptable] of the four subclasses. *)
Definition isAcceptable (self : GapWidget Widget) (component : LanguageComponent) : bool :=
  match flavor self with
  | NumberGapWidget => isinstance component NumberExpression
  | TextGapWidget => isinstance component TextExpression
  | VideoGapWidget => isinstance component VideoExpression
  | VideoCollectionGapWidget => isinstance component VideoCollectionExpression
  end.

(** [model] of the four subclasses, with [model] of the child as an
    argument. *)
Definition Gap_model_ (model : Widget -> result LanguageComponent) (self : GapWidget Widget)
  : result LanguageComponent :=
  match flavor self with
  | NumberGapWidget =>
      match _child self with Some w => model w | None => Return NumberGap end
  | TextGapWidget =>
      match _child self with Some w => model w | None => Return TextGap end
  | VideoGapWidget =>
      match _child self with Some w => model w | None => Return VideoGap end
  | VideoCollectionGapWidget =>
      match _child self with Some w => model w | None => Return VideoGap end
  end.

(** ** Drag and drop *)

(** The data of a drag: a pickled language component under
    [LC_MIME_FORMAT], or data of some other application, in a format the
    module never asks for. *)
Inductive QMimeData : Type :=
| ComponentData (lc : LanguageComponent)
| OtherData.

Definition hasFormat (d : QMimeData) (format : string) : bool :=
  match d with
  | ComponentData _ => String.eqb format LC_MIME_FORMAT
  | OtherData => false
  end.

Inductive Answer : Type :=
| accept
| ignore.

(** [GapWidget.dragEnterEvent]. *)
Definition dragEnterEvent (self : GapWidget Widget) (event : QMimeData) : Answer :=
  if negb (_readOnly self) then
    if hasFormat event LC_MIME_FORMAT then
      match event with
      | ComponentData languageComponent =>
          if isAcceptable self languageComponent then accept else ignore
      | OtherData => ignore
      end
    else ignore
  else ignore.

(** [isAcceptable] of the two subclasses of [ListGapWidget]. *)
Definition List_isAcceptable (self : ListGapWidget) (component : LanguageComponent) : bool :=
  match list_flavor self with
  | CommandGapWidget => isinstance component Statement
  | SceneGapWidget => isinstance component Scene
  end.

(** [ListGapWidget.dragEnterEvent]. *)
Definition List_dragEnterEvent (self : ListGapWidget) (event : QMimeData) : Answer :=
  if negb (list_readOnly self) then
    if hasFormat event LC_MIME_FORMAT then
      match event with
      | ComponentData languageComponent =>
          if List_isAcceptable self languageComponent then accept else ignore
      | OtherData => ignore
      end
    else ignore
  else ignore.

(** [ListGapWidget.setReadOnly]. *)
Definition ListGap_setReadOnly (ro : bool) (self : ListGapWidget) : ListGapWidget :=
  mkListGap (list_flavor self) ro.

(** ** [CommandSequenceWidget] and [ActWidget] *)

(** [_addAtEnd]: the widget goes into the layout where the gap is, so
    before it.  The widget is the next entry of the list of children, to
    which the caller appends it right after. *)
Definition _addAtEnd (widget : Widget) : Method (ListState Widget) unit :=
  (self <- get ;;
   let index := indexOf_gap (_layout self) in
   tell (layoutInsertWidget index widget) ;;
   put (mkList (_elements self) (_gap self)
          (insertWidget_at index (ChildItem (length (_elements self))) (_layout self))))%meth.

Definition append_element (w : Widget) : Method (ListState Widget) unit :=
  (self <- get ;;
   put (mkList (_elements self ++ [w]) (_gap self) (_layout self)))%meth.

(** [CommandSequenceWidget.addCommand]. *)
Definition addCommand_ (build : LanguageComponent -> M Widget) (command : LanguageComponent)
  : Method (ListState Widget) unit :=
  (commandWidget <- call (build command) ;;
   _addAtEnd commandWidget ;;
   append_element commandWidget ;;
   tell (postScriptChangeEvent ToCommandSequence))%meth.

(** [ActWidget.addScene]. *)
Definition addScene_ (build : LanguageComponent -> M Widget) (scene : LanguageComponent)
  : Method (ListState Widget) unit :=
  (sceneWidget <- call (build scene) ;;
   _addAtEnd sceneWidget ;;
   append_element sceneWidget ;;
   tell (postScriptChangeEvent ToAct))%meth.

(** ** The widget classes and the factory *)

(** [NumberOperatorWidget.OPERATORS]. *)
Definition OPERATORS
  : list (string * (LanguageComponent -> LanguageComponent -> LanguageComponent)) :=
  [("+", Add); ("-", Subtract); ("/", Multiply)].

Definition keys {A : Type} (d : list (string * A)) : list string := map fst d.

(** [d[k]]. *)
Fixpoint lookup {A : Type} (d : list (string * A)) (k : string) : result A :=
  match d with
  | [] => Raise (KeyError k)
  | (k', v) :: d' => if String.eqb k' k then Return v else lookup d' k
  end.

(** [x in xs] for texts. *)
Definition contains (xs : list string) (x : string) : bool := existsb (String.eqb x) xs.

(** The operator box of [NumberOperatorWidget.__init__]: the three labels
    are added and no current index is set, whatever [operator] is. *)
Definition operator_box : QComboBox := addItem "*" (addItem "-" (addItem "+" QComboBox_new)).

(** [NumberOperatorWidget.__init__]. *)
Definition NumberOperatorWidget_init_ (build : LanguageComponent -> M Widget)
    (operator : string) (operand1 operand2 : LanguageComponent) : M Widget :=
  if negb (contains (keys OPERATORS) operator) then raise AssertionError
  else
    (_operand1 <- GapWidget_init_ build NumberGapWidget operand1 ;;
     _operand2 <- GapWidget_init_ build NumberGapWidget operand2 ;;
     let _operator := operator_box in
     ret (NumberOperatorWidget _operand1 _operator _operand2))%eff.

(** The combo box of [GetWidget] and [SetWidget]: the variable names, with
    the position of [name] among them as the current index. *)
Definition name_box (name : string) : QComboBox :=
  let _name := addItems VARIABLE_NAMES QComboBox_new in
  setCurrentIndex (findText name _name) _name.

(** [SetWidget.__init__]. *)
Definition SetWidget_init_ (build : LanguageComponent -> M Widget)
    (name : string) (value : LanguageComponent) : M Widget :=
  (_value <- GapWidget_init_ build NumberGapWidget value ;;
   ret (SetWidget (name_box name) _value))%eff.

(** [CommandSequenceWidget.__init__]: [for command in commands] needs a
    command sequence to iterate over. *)
Definition CommandSequenceWidget_init_ (build : LanguageComponent -> M Widget)
    (commands : LanguageComponent) : M Widget :=
  match commands with
  | CommandSequence cs =>
      (self <- construct (mkList [] (mkListGap CommandGapWidget false) [GapItem])
                 (for_each (addCommand_ build) cs) ;;
       ret (CommandSequenceWidget self))%eff
  | _ => raise TypeError
  end.

(** [ActWidget.__init__]. *)
Definition ActWidget_init_ (build : LanguageComponent -> M Widget)
    (scenes : list LanguageComponent) : M Widget :=
  (self <- construct (mkList [] (mkListGap SceneGapWidget false) [Spacing 10; GapItem])
             (for_each (addScene_ build) scenes ;;
              self <- get ;;
              put (mkList (_elements self) (_gap self) (_layout self ++ [Stretch 10])))%meth ;;
   ret (ActWidget self))%eff.

(** [TextSceneWidget.__init__]. *)
Definition TextSceneWidget_init_ (build : LanguageComponent -> M Widget)
    (title comment : string) (duration pre_commands post_commands text : LanguageComponent)
  : M Widget :=
  (let _comment := (title ++ newline ++ comment)%string in
   _preCommands <- CommandSequenceWidget_init_ build pre_commands ;;
   _postCommands <- CommandSequenceWidget_init_ build post_commands ;;
   _text <- GapWidget_init_ build TextGapWidget text ;;
   _duration <- GapWidget_init_ build NumberGapWidget duration ;;
   ret (TextSceneWidget _comment _preCommands _postCommands _text _duration))%eff.

(** [VideoSceneWidget.__init__]. *)
Definition VideoSceneWidget_init_ (build : LanguageComponent -> M Widget)
    (title comment : string)
    (duration pre_commands post_commands offset source : LanguageComponent) : M Widget :=
  (let _comment := (title ++ newline ++ comment)%string in
   _preCommands <- CommandSequenceWidget_init_ build pre_commands ;;
   _postCommands <- CommandSequenceWidget_init_ build post_commands ;;
   _source <- GapWidget_init_ build VideoGapWidget source ;;
   _duration <- GapWidget_init_ build NumberGapWidget duration ;;
   _offset <- GapWidget_init_ build NumberGapWidget offset ;;
   ret (VideoSceneWidget _comment _preCommands _postCommands _source _duration _offset))%eff.

(** The [RuntimeError] of the factory.  Its message is the fixed text, a
    newline, and the [KeyError] formatted by [%s]; of the last part the
    model keeps the key that was not found, which says which class had no
    builder, and not the text that Python prints for it. *)
Definition no_builder (key : string) : Exn :=
  RuntimeError
    ("Attempted to build language component with no associated builder."
       ++ newline ++ key)%string.

(** [try: ... except KeyError as e: raise RuntimeError(...)]. *)
Definition except_KeyError {A : Type} (m : M A) : M A :=
  match m with
  | (t, Raise (KeyError key)) => (t, Raise (no_builder key))
  | _ => m
  end.

(** [LanguageWidgetFactory.build].  The classes without an entry in
    [builders] are the gaps, whose entries are commented out. *)
Fixpoint build (lc : LanguageComponent) : M Widget :=
  except_KeyError
    match lc with
    | NumberValue value => ret (NumberValueWidget (QLineEdit_new (number_text value)))
    | Add op1 op2 => NumberOperatorWidget_init_ build "+" op1 op2
    | Subtract op1 op2 => NumberOperatorWidget_init_ build "-" op1 op2
    | Multiply op1 op2 => NumberOperatorWidget_init_ build "*" op1 op2
    | TextValue value => ret (TextValueWidget (QLineEdit_new value))
    | VideoValue value => ret (VideoValueWidget (QLineEdit_new value))
    | GetVariableExpression name => ret (GetWidget (name_box name))
    | SetVariableStatement name value => SetWidget_init_ build name value
    | CommandSequence _ => CommandSequenceWidget_init_ build lc
    | TextScene title comment duration pre_commands post_commands text =>
        TextSceneWidget_init_ build title comment duration pre_commands post_commands text
    | VideoScene title comment duration pre_commands post_commands offset source =>
        VideoSceneWidget_init_ build title comment duration pre_commands post_commands
          offset source
    | YoutubeVideoGetTitle video =>
        (_video <- GapWidget_init_ build VideoGapWidget video ;;
         ret (YoutubeVideoGetTitleWidget _video))%eff
    | YoutubeVideoGetRelated video =>
        (_video <- GapWidget_init_ build VideoGapWidget video ;;
         ret (YoutubeVideoGetRelatedWidget _video))%eff
    | YoutubeVideoCollectionRandom video_collection =>
        (_videoCollection <-
           GapWidget_init_ build VideoCollectionGapWidget video_collection ;;
         ret (YoutubeVideoCollectionRandomWidget _videoCollection))%eff
    | Act scenes => ActWidget_init_ build scenes
    | NumberGap | TextGap | VideoGap | VideoCollectionGap => raise (KeyError (class_name lc))
    end.

(** [GapWidget.fillGap], [CommandSequenceWidget.addCommand] and
    [ActWidget.addScene], with the factory. *)
Definition fillGap : LanguageComponent -> Method (GapWidget Widget) unit := fillGap_ build.

Definition addCommand : LanguageComponent -> Method (ListState Widget) unit :=
  addCommand_ build.

Definition addScene : LanguageComponent -> Method (ListState Widget) unit := addScene_ build.

(** ** [model()] *)

(** [SceneWidget.title] and [SceneWidget.comment]. *)
Definition title_of (_comment : string) : string := fst (partition_newline _comment).

Definition comment_of (_comment : string) : string := snd (partition_newline _comment).

(** [model()] of every widget class.  In [VideoSceneWidget] the method
    [offset()] returns [self._duration.model()]. *)
Fixpoint model (w : Widget) : result LanguageComponent :=
  match w with
  | NumberValueWidget _number =>
      match float (text _number) with
      | Some value => Return (NumberValue value)
      | None => Raise ValueError
      end
  | TextValueWidget _text => Return (TextValue (text _text))
  | VideoValueWidget _value => Return (VideoValue (text _value))
  | NumberOperatorWidget _operand1 _operator _operand2 =>
      (let operator := currentText _operator in
       constructor <- lookup OPERATORS operator ;;
       op1 <- Gap_model_ model _operand1 ;;
       op2 <- Gap_model_ model _operand2 ;;
       Return (constructor op1 op2))%res
  | GetWidget _name => Return (GetVariableExpression (currentText _name))
  | SetWidget _name _value =>
      (value <- Gap_model_ model _value ;;
       Return (SetVariableStatement (currentText _name) value))%res
  | CommandSequenceWidget self =>
      (commands <- mapR model (_elements self) ;;
       Return (CommandSequence commands))%res
  | TextSceneWidget _comment _preCommands _postCommands _text _duration =>
      (duration <- Gap_model_ model _duration ;;
       preCommands <- model _preCommands ;;
       postCommands <- model _postCommands ;;
       text <- Gap_model_ model _text ;;
       Return (TextScene (title_of _comment) (comment_of _comment)
                 duration preCommands postCommands text))%res
  | VideoSceneWidget _comment _preCommands _postCommands _source _duration _offset =>
      (duration <- Gap_model_ model _duration ;;
       preCommands <- model _preCommands ;;
       postCommands <- model _postCommands ;;
       offset <- Gap_model_ model _duration ;;
       source <- Gap_model_ model _source ;;
       Return (VideoScene (title_of _comment) (comment_of _comment)
                 duration preCommands postCommands offset source))%res
  | YoutubeVideoGetTitleWidget _video =>
      (video <- Gap_model_ model _video ;; Return (YoutubeVideoGetTitle video))%res
  | YoutubeVideoGetRelatedWidget _video =>
      (video <- Gap_model_ model _video ;; Return (YoutubeVideoGetRelated video))%res
  | YoutubeVideoCollectionRandomWidget _videoCollection =>
      (video_collection <- Gap_model_ model _videoCollection ;;
       Return (YoutubeVideoCollectionRandom video_collection))%res
  | ActWidget self =>
      (scenes <- mapR model (_elements self) ;; Return (Act scenes))%res
  end.

(** [model()] of a gap. *)
Definition Gap_model : GapWidget Widget -> result LanguageComponent := Gap_model_ model.

(** ** [setReadOnly] *)

(** [setReadOnly] of every widget class.  The scenes and the two lists
    define no such method and inherit none from [QFrame] or [QWidget]. *)
Definition setReadOnly (ro : bool) (w : Widget) : result Widget :=
  match w with
  | NumberValueWidget _number => Return (NumberValueWidget (QLineEdit_setReadOnly ro _number))
  | TextValueWidget _text => Return (TextValueWidget (QLineEdit_setReadOnly ro _text))
  | VideoValueWidget _value => Return (VideoValueWidget (QLineEdit_setReadOnly ro _value))
  | NumberOperatorWidget _operand1 _operator _operand2 =>
      Return (NumberOperatorWidget (Gap_setReadOnly ro _operand1) _operator
                (Gap_setReadOnly ro _operand2))
  | GetWidget _name => Return (GetWidget _name)
  | SetWidget _name _value => Return (SetWidget _name (Gap_setReadOnly ro _value))
  | YoutubeVideoGetTitleWidget _video =>
      Return (YoutubeVideoGetTitleWidget (Gap_setReadOnly ro _video))
  | YoutubeVideoGetRelatedWidget _video =>
      Return (YoutubeVideoGetRelatedWidget (Gap_setReadOnly ro _video))
  | YoutubeVideoCollectionRandomWidget _videoCollection =>
      Return (YoutubeVideoCollectionRandomWidget (Gap_setReadOnly ro _videoCollection))
  | CommandSequenceWidget _
  | TextSceneWidget _ _ _ _ _
  | VideoSceneWidget _ _ _ _ _ _
  | ActWidget _ => Raise (AttributeError "setReadOnly")
  end.

(** ** What the specification says about gaps *)

(** The category a gap accepts: one per flavour (number, text, video,
    collection of videos). *)
Definition acceptedCategory (f : GapFlavor) : Category :=
  match f with
  | NumberGapWidget => NumberExpression
  | TextGapWidget => TextExpression
  | VideoGapWidget => VideoExpression
  | VideoCollectionGapWidget => VideoCollectionExpression
  end.

(** The component that stands for an empty gap of each flavour. *)
Definition gap_sentinel (f : GapFlavor) : LanguageComponent :=
  match f with
  | NumberGapWidget => NumberGap
  | TextGapWidget => TextGap
  | VideoGapWidget => VideoGap
  | VideoCollectionGapWidget => VideoCollectionGap
  end.

(** What [_emptyGap] does on screen to the widget that filled the gap. *)
Definition eviction (occupant : option Widget) : list Effect :=
  match occupant with
  | Some w => [removeWidget w; setParentNone w]
  | None => []
  end.

(** The gaps a widget owns directly. *)
Definition own_gaps (w : Widget) : list (GapWidget Widget) :=
  match w with
  | NumberOperatorWidget _operand1 _ _operand2 => [_operand1; _operand2]
  | SetWidget _ _value => [_value]
  | TextSceneWidget _ _ _ _text _duration => [_text; _duration]
  | VideoSceneWidget _ _ _ _source _duration _offset => [_source; _duration; _offset]
  | YoutubeVideoGetTitleWidget _video => [_video]
  | YoutubeVideoGetRelatedWidget _video => [_video]
  | YoutubeVideoCollectionRandomWidget _videoCollection => [_videoCollection]
  | _ => []
  end.

(** The line edits a widget owns directly. *)
Definition own_line_edits (w : Widget) : list QLineEdit :=
  match w with
  | NumberValueWidget e | TextValueWidget e | VideoValueWidget e => [e]
  | _ => []
  end.

(** Every gap in the tree below a widget: the gaps it owns, the gaps of
    the widgets that fill them, of the elements of a list and of the
    command lists of a scene. *)
Fixpoint gaps_below (w : Widget) : list (GapWidget Widget) :=
  let below := fun g : GapWidget Widget =>
    g :: match _child g with Some c => gaps_below c | None => [] end in
  match w with
  | NumberOperatorWidget _operand1 _ _operand2 => below _operand1 ++ below _operand2
  | SetWidget _ _value => below _value
  | CommandSequenceWidget self => flat_map gaps_below (_elements self)
  | ActWidget self => flat_map gaps_below (_elements self)
  | TextSceneWidget _ _preCommands _postCommands _text _duration =>
      gaps_below _preCommands ++ gaps_below _postCommands ++ below _text ++ below _duration
  | VideoSceneWidget _ _preCommands _postCommands _source _duration _offset =>
      gaps_below _preCommands ++ gaps_below _postCommands
        ++ below _source ++ below _duration ++ below _offset
  | YoutubeVideoGetTitleWidget _video => below _video
  | YoutubeVideoGetRelatedWidget _video => below _video
  | YoutubeVideoCollectionRandomWidget _videoCollection => below _videoCollection
  | NumberValueWidget _ | TextValueWidget _ | VideoValueWidget _ | GetWidget _ => []
  end.

(** The widgets of a layout, in order: its items without the spacings and
    stretches. *)
Definition is_widget_item (it : LayoutItem) : bool :=
  match it with
  | GapItem | ChildItem _ => true
  | Spacing _ | Stretch _ => false
  end.

Definition widgets_in (l : list LayoutItem) : list LayoutItem := filter is_widget_item l.

(** The layout of a list shows the children in the order of the list, and
    the gap after the last of them. *)
Definition gap_last (self : ListState Widget) : Prop :=
  widgets_in (_layout self)
  = map ChildItem (seq 0 (length (_elements self))) ++ [GapItem].

(** The two lists, told apart by the flavour of their gap: the method that
    appends, the widget, the component [model()] makes and the receiver of
    the events. *)
Definition list_add (k : ListGapFlavor) : LanguageComponent -> Method (ListState Widget) unit :=
  match k with
  | CommandGapWidget => addCommand
  | SceneGapWidget => addScene
  end.

Definition list_widget (k : ListGapFlavor) (self : ListState Widget) : Widget :=
  match k with
  | CommandGapWidget => CommandSequenceWidget self
  | SceneGapWidget => ActWidget self
  end.

Definition list_component (k : ListGapFlavor) (l : list LanguageComponent)
  : LanguageComponent :=
  match k with
  | CommandGapWidget => CommandSequence l
  | SceneGapWidget => Act l
  end.

Definition list_receiver (k : ListGapFlavor) : Receiver :=
  match k with
  | CommandGapWidget => ToCommandSequence
  | SceneGapWidget => ToAct
  end.

(** The state of a list after one successful append of [w]. *)
Definition appended (w : Widget) (s : ListState Widget) : ListState Widget :=
  mkList (_elements s ++ [w]) (_gap s)
    (insertWidget_at (indexOf_gap (_layout s)) (ChildItem (length (_elements s))) (_layout s)).

(** The call returned and the last thing it did was to post a
    [ScriptChangeEvent] to [self]. *)
Definition notifies_last (self : Receiver) (m : M unit) : Prop :=
  exists t, m = (t ++ [postScriptChangeEvent self], Return tt).

(** What [t] and [s'] are after appends of [cs] to [s] that all
    succeeded: the list holds, after its old elements, the widgets the
    factory built for [cs], in that order; [model()] returns the models of
    exactly these elements, in order; and every call ended by posting a
    [ScriptChangeEvent]. *)
Definition appended_all (k : ListGapFlavor) (cs : list LanguageComponent)
    (s s' : ListState Widget) (t : list Effect) : Prop :=
  exists (ws : list Widget) (ts : list (list Effect)),
    Forall2 (fun c w => exists tb, build c = (tb, Return w)) cs ws
    /\ _elements s' = _elements s ++ ws
    /\ length ws = length cs
    /\ (forall vs,
          Forall2 (fun w v => model w = Return v) (_elements s ++ ws) vs ->
          model (list_widget k s') = Return (list_component k vs)
          /\ length vs = (length (_elements s) + length cs)%nat)
    /\ t = concat ts
    /\ length ts = length cs
    /\ Forall (notifies_last (list_receiver k)) (map (fun ti => (ti, Return tt)) ts).

(** ** Components that the factory and [model()] give back *)

(** What [model()] returns for an empty gap of each flavour. *)
Definition model_of_empty (f : GapFlavor) : LanguageComponent :=
  match f with
  | NumberGapWidget => NumberGap
  | TextGapWidget => TextGap
  | VideoGapWidget => VideoGap
  | VideoCollectionGapWidget => VideoGap
  end.

Fixpoint has_newline (s : string) : bool :=
  match s with
  | EmptyString => false
  | String c s' => Ascii.eqb c (ascii_of_nat 10) || has_newline s'
  end.

Definition is_CommandSequence (lc : LanguageComponent) : bool :=
  match lc with
  | CommandSequence _ => true
  | _ => false
  end.

(** The value of a gap is what an empty gap of that flavour has as model,
    or a component with property [P]. *)
Definition in_gap (P : LanguageComponent -> Prop) (f : GapFlavor) (c : LanguageComponent)
  : Prop :=
  c = model_of_empty f \/ P c.

Definition all_of (P : LanguageComponent -> Prop) : list LanguageComponent -> Prop :=
  fix all (l : list LanguageComponent) : Prop :=
    match l with
    | [] => True
    | c :: l' => P c /\ all l'
    end.

(** The components on which the round trip holds: no difference and no
    product; numbers that [float()] reads back from their text; variables
    among [VARIABLE_NAMES]; titles of one line; video scenes whose offset is
    their duration; command sequences where a scene has its commands; and
    in every gap the model of the empty gap or such a component again. *)
Fixpoint reads_back (lc : LanguageComponent) : Prop :=
  match lc with
  | NumberGap | TextGap | VideoGap | VideoCollectionGap => False
  | NumberValue value => float (number_text value) = Some value
  | Add op1 op2 =>
      in_gap reads_back NumberGapWidget op1 /\ in_gap reads_back NumberGapWidget op2
  | Subtract _ _ | Multiply _ _ => False
  | TextValue _ | VideoValue _ => True
  | GetVariableExpression name => In name VARIABLE_NAMES
  | SetVariableStatement name value =>
      In name VARIABLE_NAMES /\ in_gap reads_back NumberGapWidget value
  | CommandSequence commands => all_of reads_back commands
  | TextScene title comment duration pre_commands post_commands text =>
      has_newline title = false
      /\ in_gap reads_back NumberGapWidget duration
      /\ (is_CommandSequence pre_commands = true /\ reads_back pre_commands)
      /\ (is_CommandSequence post_commands = true /\ reads_back post_commands)
      /\ in_gap reads_back TextGapWidget text
  | VideoScene title comment duration pre_commands post_commands offset source =>
      has_newline title = false
      /\ in_gap reads_back NumberGapWidget duration
      /\ (is_CommandSequence pre_commands = true /\ reads_back pre_commands)
      /\ (is_CommandSequence post_commands = true /\ reads_back post_commands)
      /\ offset = duration
      /\ in_gap reads_back VideoGapWidget source
  | YoutubeVideoGetTitle video => in_gap reads_back VideoGapWidget video
  | YoutubeVideoGetRelated video => in_gap reads_back VideoGapWidget video
  | YoutubeVideoCollectionRandom video_collection =>
      in_gap reads_back VideoCollectionGapWidget video_collection
  | Act scenes => all_of reads_back scenes
  end.

(** The factory builds a widget for the component, and the model of the
    widget is the component. *)
Definition builds_back (lc : LanguageComponent) : Prop :=
  exists t w, build lc = (t, Return w) /\ model w = Return lc.

(** [model()] of the widget the factory builds for a component. *)
Definition round_trip (lc : LanguageComponent) : result LanguageComponent :=
  (w <- snd (build lc) ;; model w)%res.

End Methods.


(** ** Dropping, and what the factory builds and reads back *)

Section Dropping.

Context {py : PyNumber}.

(** [extractLanguageComponent]: the component pickled into the event by
    [startDrag].  Unpickling the data of another application is left out. *)
Definition extractLanguageComponent (event : QMimeData) : option LanguageComponent :=
  match event with
  | ComponentData lc => Some lc
  | OtherData => None
  end.

(** [GapWidget.dropEvent]. *)
Definition dropEvent (event : QMimeData) : option (Method (GapWidget Widget) unit) :=
  option_map fillGap (extractLanguageComponent event).

(** [CommandGapWidget.dropEvent]: [self.parent().addCommand(lc)], as a
    method of the parent. *)
Definition CommandGapWidget_dropEvent (event : QMimeData)
  : option (Method (ListState Widget) unit) :=
  option_map addCommand (extractLanguageComponent event).

(** [SceneGapWidget.dropEvent]: [self.parent().addScene(lc)], as a method
    of the parent. *)
Definition SceneGapWidget_dropEvent (event : QMimeData)
  : option (Method (ListState Widget) unit) :=
  option_map addScene (extractLanguageComponent event).

(** [dropEvent] of the gap of a list, by the flavour of the gap. *)
Definition List_dropEvent (k : ListGapFlavor) (event : QMimeData)
  : option (Method (ListState Widget) unit) :=
  match k with
  | CommandGapWidget => CommandGapWidget_dropEvent event
  | SceneGapWidget => SceneGapWidget_dropEvent event
  end.

(** A gap is built around a component when the component is a gap, which
    is not built at all, or has property [P]. *)
Definition in_slot (P : LanguageComponent -> bool) (c : LanguageComponent) : bool :=
  isinstance c Gap || P c.

(** The components for which the factory returns a widget: no product
    and no gap is built, the elements of a command sequence and of an act
    are built, and so is what the gaps of a widget are filled with; the
    commands of a scene are a command sequence. *)
Fixpoint buildable (lc : LanguageComponent) : bool :=
  match lc with
  | NumberGap | TextGap | VideoGap | VideoCollectionGap => false
  | NumberValue _ | TextValue _ | VideoValue _ | GetVariableExpression _ => true
  | Add op1 op2 | Subtract op1 op2 => in_slot buildable op1 && in_slot buildable op2
  | Multiply _ _ => false
  | SetVariableStatement _ value => in_slot buildable value
  | CommandSequence commands => forallb buildable commands
  | TextScene _ _ duration pre_commands post_commands text =>
      (is_CommandSequence pre_commands && buildable pre_commands)
      && (is_CommandSequence post_commands && buildable post_commands)
      && in_slot buildable text && in_slot buildable duration
  | VideoScene _ _ duration pre_commands post_commands offset source =>
      (is_CommandSequence pre_commands && buildable pre_commands)
      && (is_CommandSequence post_commands && buildable post_commands)
      && in_slot buildable source && in_slot buildable duration
      && in_slot buildable offset
  | YoutubeVideoGetTitle video => in_slot buildable video
  | YoutubeVideoGetRelated video => in_slot buildable video
  | YoutubeVideoCollectionRandom video_collection => in_slot buildable video_collection
  | Act scenes => forallb buildable scenes
  end.

(** [map] with a function that may have no value. *)
Definition mapO {A B : Type} (f : A -> option B) : list A -> option (list B) :=
  fix go (l : list A) : option (list B) :=
    match l with
    | [] => Some []
    | a :: l' =>
        match f a, go l' with
        | Some b, Some bs => Some (b :: bs)
        | _, _ => None
        end
    end.

(** The name a variable box shows for [name]. *)
Definition shown_name (name : string) : string :=
  if contains VARIABLE_NAMES name then name else EmptyString.

(** What comes back from a gap built around [c]. *)
Definition back_from_gap (back : LanguageComponent -> option LanguageComponent)
    (f : GapFlavor) (c : LanguageComponent) : option LanguageComponent :=
  if isinstance c Gap then Some (model_of_empty f) else back c.

(** The component that [model()] returns for the widget built for [lc],
    computed on the component alone; [None] when a number in it has a text
    that [float()] does not read.  A difference comes back as a sum, the
    offset of a video scene as its duration, a gap in a gap widget as the
    model of the empty widget, a variable by the name its box shows, and
    the title and comment of a scene as the first line and the rest of
    their text. *)
Fixpoint comes_back (lc : LanguageComponent) : option LanguageComponent :=
  match lc with
  | NumberGap | TextGap | VideoGap | VideoCollectionGap => None
  | NumberValue value => option_map NumberValue (float (number_text value))
  | Add op1 op2 | Subtract op1 op2 =>
      match back_from_gap comes_back NumberGapWidget op1,
            back_from_gap comes_back NumberGapWidget op2 with
      | Some op1', Some op2' => Some (Add op1' op2')
      | _, _ => None
      end
  | Multiply _ _ => None
  | TextValue _ | VideoValue _ => Some lc
  | GetVariableExpression name => Some (GetVariableExpression (shown_name name))
  | SetVariableStatement name value =>
      match back_from_gap comes_back NumberGapWidget value with
      | Some value' => Some (SetVariableStatement (shown_name name) value')
      | None => None
      end
  | CommandSequence commands => option_map CommandSequence (mapO comes_back commands)
  | TextScene title comment duration pre_commands post_commands text =>
      match back_from_gap comes_back NumberGapWidget duration,
            comes_back pre_commands, comes_back post_commands,
            back_from_gap comes_back TextGapWidget text with
      | Some duration', Some pre', Some post', Some text' =>
          Some (TextScene (title_of (title ++ newline ++ comment)%string)
                  (comment_of (title ++ newline ++ comment)%string)
                  duration' pre' post' text')
      | _, _, _, _ => None
      end
  | VideoScene title comment duration pre_commands post_commands offset source =>
      match back_from_gap comes_back NumberGapWidget duration,
            comes_back pre_commands, comes_back post_commands,
            back_from_gap comes_back VideoGapWidget source with
      | Some duration', Some pre', Some post', Some source' =>
          Some (VideoScene (title_of (title ++ newline ++ comment)%string)
                  (comment_of (title ++ newline ++ comment)%string)
                  duration' pre' post' duration' source')
      | _, _, _, _ => None
      end
  | YoutubeVideoGetTitle video =>
      option_map YoutubeVideoGetTitle (back_from_gap comes_back VideoGapWidget video)
  | YoutubeVideoGetRelated video =>
      option_map YoutubeVideoGetRelated (back_from_gap comes_back VideoGapWidget video)
  | YoutubeVideoCollectionRandom video_collection =>
      option_map YoutubeVideoCollectionRandom
        (back_from_gap comes_back VideoCollectionGapWidget video_collection)
  | Act scenes => option_map Act (mapO comes_back scenes)
  end.

(** The only exception of [model()] on a widget that the factory built. *)
Definition or_ValueError {A : Type} (o : option A) : result A :=
  match o with
  | Some a => Return a
  | None => Raise ValueError
  end.

(** The constructor call returned an object. *)
Definition returns {A : Type} (m : M A) : bool :=
  match snd m with
  | Return _ => true
  | Raise _ => false
  end.

(** The constructor of a list, by the flavour of its gap: of a command
    sequence from the commands, of an act from the scenes. *)
Definition list_init (k : ListGapFlavor) (cs : list LanguageComponent) : M Widget :=
  match k with
  | CommandGapWidget => CommandSequenceWidget_init_ build (CommandSequence cs)
  | SceneGapWidget => ActWidget_init_ build cs
  end.

(** The effects remove no widget from a gap. *)
Definition keeps_widgets (t : list Effect) : bool :=
  forallb (fun e => match e with
                    | removeWidget _ | setParentNone _ => false
                    | _ => true
                    end) t.

(** No gap in the tree below the widget is read-only. *)
Definition all_editable (w : Widget) : Prop :=
  Forall (fun g : GapWidget Widget => _readOnly g = false) (gaps_below w).

(** The model of a widget built for [lc] is what [comes_back] computes,
    and no gap below the widget is read-only. *)
Definition built_well (lc : LanguageComponent) : Prop :=
  forall t w, build lc = (t, Return w) ->
    model w = or_ValueError (comes_back lc) /\ all_editable w.

(** What comes back from a buildable component is buildable, comes back
    as itself, is no gap, and is a command sequence when the component is
    one. *)
Definition stable (lc : LanguageComponent) : Prop :=
  forall lc', buildable lc = true -> comes_back lc = Some lc' ->
    buildable lc' = true /\ comes_back lc' = Some lc'
    /\ isinstance lc' Gap = false /\ is_CommandSequence lc' = is_CommandSequence lc.

(** The layout of a list is exactly [pre], the children in the order of
    the list, the gap and [post]; and [pre] holds no gap. *)
Definition laid_out (pre post : list LayoutItem) (self : ListState Widget) : Prop :=
  forallb (fun it => negb (is_GapItem it)) pre = true
  /\ _layout self
     = pre ++ map ChildItem (seq 0 (length (_elements self))) ++ GapItem :: post.

(** The layout that the constructor of a list leaves for [n] elements: of
    a command sequence the children and the gap; of an act the spacing of
    10, the children, the gap, and the stretch of 10. *)
Definition list_layout (k : ListGapFlavor) (n : nat) : list LayoutItem :=
  match k with
  | CommandGapWidget => map ChildItem (seq 0 n) ++ [GapItem]
  | SceneGapWidget => Spacing 10 :: map ChildItem (seq 0 n) ++ [GapItem; Stretch 10]
  end.

(** The factory returns the widgets [ws] for the components [cs], one for
    one. *)
Definition built_all (cs : list LanguageComponent) (ws : list Widget) : Prop :=
  Forall2 (fun c w => exists tb, build c = (tb, Return w)) cs ws.

End Dropping.

(** ** Values for the examples *)

Section ExampleValues.

#[local] Existing Instance whole_numbers.

(** An empty number gap, a number gap filled with the number 7, and the
    operator widget built for a sum of two gaps. *)
Definition empty_number_gap : GapWidget Widget := mkGap NumberGapWidget None false.

Definition seven : Widget := NumberValueWidget (QLineEdit_new "7").

Definition sum_of_gaps : Widget :=
  NumberOperatorWidget empty_number_gap operator_box empty_number_gap.

(** A whole number as [language.NumberValue], and the sum 7 + gap. *)
Definition num (z : Z) : LanguageComponent := NumberValue (z : @number whole_numbers).

Definition seven_plus_gap : LanguageComponent := Add (num 7) NumberGap.

(** A command sequence that has just been made, and two statements. *)
Definition new_commands : ListState Widget :=
  mkList [] (mkListGap CommandGapWidget false) [GapItem].

Definition two_statements : list LanguageComponent :=
  [SetVariableStatement "item" NumberGap; SetVariableStatement "curr_offset" NumberGap].

(** The component [MiniVideoSceneWidget.model()] returns, and the widget
    the factory builds for it. *)
Definition example_video_scene : LanguageComponent :=
  VideoScene "Example Video Scene"
    "Displays Gangnan Style video for 10 seconds from offset 0 seconds."
    (num 10) (CommandSequence []) (CommandSequence [])
    (num 0) (VideoValue "http://www.youtube.com/watch?v=9bZkp7q19f0").

(** The component [MiniTextSceneWidget.model()] returns. *)
Definition example_text_scene : LanguageComponent :=
  TextScene "Example Text Scene"
    "Displays title of Gangnan Style video for 2 seconds."
    (num 2) (CommandSequence []) (CommandSequence [])
    (YoutubeVideoGetTitle (VideoValue "http://www.youtube.com/watch?v=9bZkp7q19f0")).

(** The difference 5 - gap and the widget the factory builds for it; the
    widget the factory builds for the two statements. *)
Definition five_minus_gap : LanguageComponent := Subtract (num 5) NumberGap.

Definition five_minus_gap_widget : Widget :=
  NumberOperatorWidget
    (mkGap NumberGapWidget (Some (NumberValueWidget (QLineEdit_new "5"))) false)
    operator_box empty_number_gap.

Definition two_statements_widget : Widget :=
  CommandSequenceWidget
    (mkList [SetWidget (name_box "item") empty_number_gap;
             SetWidget (name_box "curr_offset") empty_number_gap]
       (mkListGap CommandGapWidget false) [ChildItem 0; ChildItem 1; GapItem]).

(** An act that has just been made. *)
Definition new_act : ListState Widget :=
  mkList [] (mkListGap SceneGapWidget false) [Spacing 10; GapItem].

(** The widget the factory builds for the example text scene, and the act
    widget that the constructor makes for an act of this one scene. *)
Definition example_text_scene_widget : Widget :=
  TextSceneWidget
    ("Example Text Scene" ++ newline
       ++ "Displays title of Gangnan Style video for 2 seconds.")%string
    (CommandSequenceWidget new_commands) (CommandSequenceWidget new_commands)
    (mkGap TextGapWidget
       (Some (YoutubeVideoGetTitleWidget
                (mkGap VideoGapWidget
                   (Some (VideoValueWidget
                            (QLineEdit_new "http://www.youtube.com/watch?v=9bZkp7q19f0")))
                   false)))
       false)
    (mkGap NumberGapWidget (Some (NumberValueWidget (QLineEdit_new "2"))) false).

Definition one_scene_act_widget : Widget :=
  ActWidget
    (mkList [example_text_scene_widget] (mkListGap SceneGapWidget false)
       [Spacing 10; ChildItem 0; GapItem; Stretch 10]).

End ExampleValues.

(** * Properties *)

Section Gaps.

Context {py : PyNumber}.

(** C7: [emptyGap] on an empty gap raises the error that says the gap is not
    occupied, leaves the gap as it was and posts no event; on a full gap it
    removes and discards the occupant, after which [isFull] is false, and
    then posts the [ScriptChangeEvent]. *)
Theorem emptyGap_spec (f : GapFlavor) (ro : bool) (w : Widget) :
  emptyGap (mkGap f None ro)
    = (mkGap f None ro, ([], Raise (RuntimeError "Gap is currently not occupied.")))
  /\ emptyGap (mkGap f (Some w) ro)
       = (mkGap f None ro,
          ([removeWidget w; setParentNone w; postScriptChangeEvent (ToGap f)], Return tt))
  /\ isFull (fst (emptyGap (mkGap f (Some w) ro))) = false.
Proof. repeat split. Qed.

(** A gap of number, text or video flavour that is empty has its own
    sentinel as model. *)
Lemma empty_gap_model (f : GapFlavor) (ro : bool) :
  f <> VideoCollectionGapWidget ->
  Gap_model (mkGap f None ro) = Return (gap_sentinel f).
Proof. destruct f; intros Hf; try reflexivity. now elim Hf. Qed.

(** C2: the model of an empty gap for a collection of videos is [VideoGap],
    the sentinel of the video gaps, which is neither the sentinel of a
    collection of videos nor a component this gap accepts; the other three
    flavours return their own sentinel. *)
Theorem VideoCollectionGapWidget_model_empty (ro : bool) :
  Gap_model (mkGap VideoCollectionGapWidget None ro) = Return VideoGap
  /\ VideoGap <> gap_sentinel VideoCollectionGapWidget
  /\ isAcceptable (mkGap VideoCollectionGapWidget None ro) VideoGap = false
  /\ Gap_model (mkGap NumberGapWidget None ro) = Return NumberGap
  /\ Gap_model (mkGap TextGapWidget None ro) = Return TextGap
  /\ Gap_model (mkGap VideoGapWidget None ro) = Return VideoGap.
Proof. repeat split; discriminate. Qed.

(** [isAcceptable], case by case: the classes a gap of each flavour accepts. *)
Lemma isAcceptable_cases (self : GapWidget Widget) (c : LanguageComponent) :
  isAcceptable self c =
  match flavor self, c with
  | NumberGapWidget, (NumberGap | NumberValue _ | Add _ _ | Subtract _ _ | Multiply _ _) => true
  | TextGapWidget, (TextGap | TextValue _ | YoutubeVideoGetTitle _) => true
  | VideoGapWidget, (VideoGap | VideoValue _ | YoutubeVideoCollectionRandom _) => true
  | VideoCollectionGapWidget, (VideoCollectionGap | YoutubeVideoGetRelated _) => true
  | _, _ => false
  end.
Proof. destruct self as [[] ? ?], c; reflexivity. Qed.

(** C8: a gap accepts a component exactly when the category the gap is for
    is among the categories of the component; the sentinel of its own
    family is accepted; the answer depends on the flavour of the gap only,
    not on what fills it or on the read-only flag, and [isAcceptable]
    computes an answer without a new state of the gap. *)
Theorem isAcceptable_spec (self : GapWidget Widget) (c : LanguageComponent) :
  (isAcceptable self c = true <-> In (acceptedCategory (flavor self)) (categories c))
  /\ isAcceptable self (gap_sentinel (flavor self)) = true
  /\ (forall occupant ro,
        isAcceptable (mkGap (flavor self) occupant ro) c = isAcceptable self c).
Proof.
  split; [|split].
  - unfold isAcceptable, isinstance.
    destruct self as [[] ? ?]; simpl; rewrite existsb_exists; split.
    all: try (intros [k [Hin Hk]]; destruct k; try discriminate; exact Hin).
    all: intros Hin; eexists; split; [exact Hin | reflexivity].
  - destruct self as [[] ? ?]; reflexivity.
  - intros occupant ro. destruct self as [[] ? ?]; reflexivity.
Qed.

End Gaps.

Section Operators.

Context {py : PyNumber}.

Lemma operator_box_items :
  items operator_box = ["+"; "-"; "*"] /\ currentText operator_box = "+".
Proof. split; reflexivity. Qed.

(** The labels offered by the box and the keys of [OPERATORS] differ in
    the third entry. *)
Lemma OPERATORS_keys : keys OPERATORS = ["+"; "-"; "/"].
Proof. reflexivity. Qed.

(** With "+" or "-" selected, [model()] applies the constructor found in
    [OPERATORS] to the models of the two operand gaps. *)
Lemma NumberOperatorWidget_model_plus_minus
    (_operand1 _operand2 : GapWidget Widget) (_operator : QComboBox)
    (op1 op2 : LanguageComponent) :
  Gap_model _operand1 = Return op1 ->
  Gap_model _operand2 = Return op2 ->
  (currentText _operator = "+" ->
   model (NumberOperatorWidget _operand1 _operator _operand2) = Return (Add op1 op2))
  /\ (currentText _operator = "-" ->
      model (NumberOperatorWidget _operand1 _operator _operand2) = Return (Subtract op1 op2)).
Proof.
  unfold Gap_model. intros H1 H2.
  split; intros Hop; simpl; rewrite Hop; simpl; rewrite H1, H2; reflexivity.
Qed.

(** C4: with "*" selected, the third label the operator box offers,
    [model()] raises [KeyError] instead of returning a product: "*" is not a
    key of [OPERATORS].  The operands are not even asked for their models. *)
Theorem NumberOperatorWidget_model_star (_operand1 _operand2 : GapWidget Widget) :
  In "*" (items operator_box)
  /\ currentText (setCurrentIndex 2 operator_box) = "*"
  /\ model (NumberOperatorWidget _operand1 (setCurrentIndex 2 operator_box) _operand2)
     = Raise (KeyError "*").
Proof. repeat split. simpl. tauto. Qed.

(** C10: the factory raises [AssertionError] on every product, before any
    widget is made: the builder of [Multiply] passes "*", and the keys of
    [OPERATORS] are "+", "-" and "/"; and [model()] of an operator widget
    whose box shows "*" raises [KeyError]. *)
Theorem build_Multiply_raises (op1 op2 : LanguageComponent) :
  build (Multiply op1 op2) = ([], Raise AssertionError)
  /\ keys OPERATORS = ["+"; "-"; "/"]
  /\ (forall (_operand1 _operand2 : GapWidget Widget) (_operator : QComboBox),
        currentText _operator = "*" ->
        model (NumberOperatorWidget _operand1 _operator _operand2) = Raise (KeyError "*")).
Proof.
  repeat split.
  intros o1 o2 box Hbox. simpl. rewrite Hbox. reflexivity.
Qed.

End Operators.

Section Scenes.

Context {py : PyNumber}.

(** C9: the model of a [VideoSceneWidget] has the model of the duration gap
    in its offset field: when the comment, the two command lists, the
    duration gap and the source gap have models, the scene returned carries
    the duration twice, and the offset gap has no part in the result, which
    is the same for any two offset gaps. *)
Theorem VideoSceneWidget_model_offset
    (_comment : string) (_preCommands _postCommands : Widget)
    (_source _duration _offset : GapWidget Widget)
    (duration preCommands postCommands source : LanguageComponent) :
  Gap_model _duration = Return duration ->
  model _preCommands = Return preCommands ->
  model _postCommands = Return postCommands ->
  Gap_model _source = Return source ->
  model (VideoSceneWidget _comment _preCommands _postCommands _source _duration _offset)
    = Return (VideoScene (title_of _comment) (comment_of _comment)
                duration preCommands postCommands duration source)
  /\ forall _offset' : GapWidget Widget,
       model (VideoSceneWidget _comment _preCommands _postCommands _source _duration _offset')
       = model (VideoSceneWidget _comment _preCommands _postCommands _source _duration _offset).
Proof.
  unfold Gap_model. intros Hd Hp Hq Hs. split.
  - simpl. rewrite Hd. simpl. rewrite Hp. simpl. rewrite Hq. simpl. rewrite Hs. reflexivity.
  - intros _offset'. reflexivity.
Qed.

End Scenes.

Section Filling.

Context {py : PyNumber}.

(** [fillGap], step by step: the old occupant goes first; a gap as
    component ends the call with the event; otherwise the factory runs, and
    an exception of the factory leaves [fillGap] with the old occupant gone
    and no event posted by the gap. *)
Lemma fillGap_unfold (f : GapFlavor) (ro : bool) (occupant : option Widget)
    (c : LanguageComponent) :
  fillGap c (mkGap f occupant ro) =
  if isinstance c Gap
  then (mkGap f None ro, (eviction occupant ++ [postScriptChangeEvent (ToGap f)], Return tt))
  else match build c with
       | (t, Return w) =>
           (mkGap f (Some w) ro,
            (eviction occupant ++ t
               ++ [insertWidget 1 w; setCurrentPage 1; postScriptChangeEvent (ToGap f)],
             Return tt))
       | (t, Raise e) => (mkGap f None ro, (eviction occupant ++ t, Raise e))
       end.
Proof.
  unfold fillGap, fillGap_, mbind, get, call. simpl.
  destruct occupant; simpl; destruct (isinstance c Gap); simpl; try reflexivity;
    destruct (build c) as [t [w1 | e]]; simpl; rewrite <- ?app_assoc; reflexivity.
Qed.

(** Where the factory returns a widget: [fillGap] first removes and
    discards the occupant, if any; it leaves the gap empty when the
    component is a gap, and otherwise installs the widget of the factory; in
    both cases the last thing it does is to post the [ScriptChangeEvent],
    also from empty to empty.  The state of the gap afterwards, and so its
    model, is the same whatever occupant was displaced. *)
Theorem fillGap_spec (f : GapFlavor) (ro : bool) (occupant : option Widget)
    (c : LanguageComponent) :
  (isinstance c Gap = true ->
   fillGap c (mkGap f occupant ro)
     = (mkGap f None ro,
        (eviction occupant ++ [postScriptChangeEvent (ToGap f)], Return tt)))
  /\ (forall (t : list Effect) (w : Widget),
        isinstance c Gap = false ->
        build c = (t, Return w) ->
        fillGap c (mkGap f occupant ro)
          = (mkGap f (Some w) ro,
             (eviction occupant ++ t
                ++ [insertWidget 1 w; setCurrentPage 1; postScriptChangeEvent (ToGap f)],
              Return tt))
        /\ Gap_model (fst (fillGap c (mkGap f occupant ro))) = model w)
  /\ ((isinstance c Gap = true \/ exists t w, build c = (t, Return w)) ->
      notifies_last (ToGap f) (snd (fillGap c (mkGap f occupant ro))))
  /\ fst (fillGap c (mkGap f occupant ro)) = fst (fillGap c (mkGap f None ro)).
Proof.
  rewrite !fillGap_unfold. split; [|split; [|split]].
  - intros ->. reflexivity.
  - intros t w -> ->. split; [reflexivity|]. destruct f; reflexivity.
  - intros [-> | [t [w Hb]]].
    + now exists (eviction occupant).
    + destruct (isinstance c Gap); [now exists (eviction occupant)|].
      rewrite Hb. exists (eviction occupant ++ t ++ [insertWidget 1 w; setCurrentPage 1]).
      simpl. rewrite <- !app_assoc. reflexivity.
  - destruct (isinstance c Gap); [reflexivity|].
    destruct (build c) as [t [w | e]]; reflexivity.
Qed.

(** C5: a product is acceptable to a number gap, and a drag of it over
    the gap is accepted; but [fillGap] with a product, after it has removed
    and discarded the occupant, ends with the [AssertionError] of the
    operator widget: no widget is installed, the gap is left empty (its
    model is that of the empty gap), and no [ScriptChangeEvent] is posted. *)
Theorem fillGap_Multiply_raises (f : GapFlavor) (ro : bool) (occupant : option Widget)
    (op1 op2 : LanguageComponent) :
  isAcceptable (mkGap NumberGapWidget occupant ro) (Multiply op1 op2) = true
  /\ dragEnterEvent (mkGap NumberGapWidget occupant false) (ComponentData (Multiply op1 op2))
     = accept
  /\ fillGap (Multiply op1 op2) (mkGap f occupant ro)
     = (mkGap f None ro, (eviction occupant, Raise AssertionError))
  /\ ~ notifies_last (ToGap f) (snd (fillGap (Multiply op1 op2) (mkGap f occupant ro)))
  /\ Gap_model (fst (fillGap (Multiply op1 op2) (mkGap f occupant ro)))
     = Return (model_of_empty f).
Proof.
  assert (H : fillGap (Multiply op1 op2) (mkGap f occupant ro)
              = (mkGap f None ro, (eviction occupant, Raise AssertionError))).
  { rewrite fillGap_unfold. cbn. now rewrite app_nil_r. }
  split; [reflexivity|]. split; [reflexivity|]. split; [exact H|].
  rewrite H. split.
  - intros [t Ht]. discriminate.
  - destruct f; reflexivity.
Qed.

End Filling.

Section ReadOnly.

Context {py : PyNumber}.

(** A gap whose read-only flag is set ignores every drag, whatever it
    carries. *)
Lemma dragEnterEvent_readOnly (self : GapWidget Widget) (event : QMimeData) :
  _readOnly self = true -> dragEnterEvent self event = ignore.
Proof. unfold dragEnterEvent. intros ->. reflexivity. Qed.

(** C3, as the code has it: [setReadOnly ro] on a widget sets the flag of
    the line edit the widget owns and of each gap it owns directly, and
    leaves what fills those gaps as it is; on a gap it sets the flag of the
    gap alone; a gap (or the gap of a list) whose flag is set ignores every
    drag, whatever component it carries. *)
Theorem setReadOnly_spec (ro : bool) (w w' : Widget) :
  setReadOnly ro w = Return w' ->
  map _readOnly (own_gaps w') = map (fun _ => ro) (own_gaps w)
  /\ map _child (own_gaps w') = map _child (own_gaps w)
  /\ map isReadOnly (own_line_edits w') = map (fun _ => ro) (own_line_edits w)
  /\ (ro = true ->
      forall g event, In g (own_gaps w') -> dragEnterEvent g event = ignore)
  /\ (forall g : GapWidget Widget,
        Gap_setReadOnly ro g = mkGap (flavor g) (_child g) ro
        /\ forall event, dragEnterEvent (Gap_setReadOnly true g) event = ignore)
  /\ (forall (g : ListGapWidget) event,
        List_dragEnterEvent (ListGap_setReadOnly true g) event = ignore).
Proof.
  intros Hw.
  assert (H1 : map _readOnly (own_gaps w') = map (fun _ => ro) (own_gaps w)).
  { destruct w; simpl in Hw; inversion Hw; subst; reflexivity. }
  split; [exact H1|]. split; [|split; [|split; [|split]]].
  - destruct w; simpl in Hw; inversion Hw; subst; reflexivity.
  - destruct w; simpl in Hw; inversion Hw; subst; reflexivity.
  - intros -> g event Hin. apply dragEnterEvent_readOnly.
    assert (Hall : In (_readOnly g) (map _readOnly (own_gaps w'))) by now apply in_map.
    rewrite H1 in Hall. apply in_map_iff in Hall. now destruct Hall as [? [<- _]].
  - intros g. split; reflexivity.
  - intros g event. reflexivity.
Qed.

End ReadOnly.

Section Lists.

Context {py : PyNumber}.

Lemma mapR_cons {A B : Type} (f : A -> result B) (a : A) (l : list A) :
  mapR f (a :: l) = (b <- f a ;; bs <- mapR f l ;; Return (b :: bs))%res.
Proof. reflexivity. Qed.

Lemma for_each_cons {S A : Type} (body : A -> Method S unit) (a : A) (l : list A) :
  for_each body (a :: l) = (body a ;; for_each body l)%meth.
Proof. reflexivity. Qed.

(** [mapR] returns exactly when every element returns, with the values in
    the order of the elements. *)
Lemma mapR_Forall2 {A B : Type} (f : A -> result B) (l : list A) (vs : list B) :
  mapR f l = Return vs <-> Forall2 (fun a v => f a = Return v) l vs.
Proof.
  revert vs. induction l as [|a l IH]; intros vs.
  - split.
    + intros H. inversion H. constructor.
    + intros H. inversion H. reflexivity.
  - rewrite mapR_cons. split.
    + destruct (f a) as [b|e] eqn:Ha; cbn [rbind]; [|discriminate].
      destruct (mapR f l) as [bs|e] eqn:Hl; cbn [rbind]; [|discriminate].
      intros H. inversion H; subst. constructor; [exact Ha|]. now apply IH.
    + intros H. inversion H as [|a' v l' vs' Ha Hl]; subst.
      rewrite Ha. cbn [rbind]. apply IH in Hl. rewrite Hl. reflexivity.
Qed.

(** One append, step by step. *)
Lemma list_add_unfold (k : ListGapFlavor) (c : LanguageComponent) (s : ListState Widget) :
  list_add k c s =
  match build c with
  | (tb, Return w) =>
      (mkList (_elements s ++ [w]) (_gap s)
         (insertWidget_at (indexOf_gap (_layout s)) (ChildItem (length (_elements s)))
            (_layout s)),
       (tb ++ [layoutInsertWidget (indexOf_gap (_layout s)) w;
               postScriptChangeEvent (list_receiver k)],
        Return tt))
  | (tb, Raise e) => (s, (tb, Raise e))
  end.
Proof.
  destruct k; unfold list_add, addCommand, addCommand_, addScene, addScene_, mbind, call;
    destruct (build c) as [tb [w | e]]; simpl; reflexivity.
Qed.

(** Inserting a child where the gap is puts it last among the children
    and keeps the gap after it. *)
Lemma insert_at_gap (l : list LayoutItem) :
  forall (k : Z) (cs : list LayoutItem) (it : LayoutItem),
    is_widget_item it = true ->
    ~ In GapItem cs ->
    widgets_in l = cs ++ [GapItem] ->
    k <= indexOf_from k l <= k + Z.of_nat (length l)
    /\ widgets_in (firstn (Z.to_nat (indexOf_from k l - k)) l
                     ++ it :: skipn (Z.to_nat (indexOf_from k l - k)) l)
       = cs ++ [it; GapItem].
Proof.
  induction l as [|a l IH]; intros k cs it Hit Hcs Hl.
  - destruct cs; discriminate.
  - destruct a as [n | n | | j]; cbn [indexOf_from is_GapItem].
    + cbn in Hl. destruct (IH (k + 1) cs it Hit Hcs Hl) as [Hb Hw].
      split; [cbn [length]; lia|].
      replace (Z.to_nat (indexOf_from (k + 1) l - k))
        with (S (Z.to_nat (indexOf_from (k + 1) l - (k + 1)))) by lia.
      cbn [firstn skipn app]. unfold widgets_in in *. cbn [filter is_widget_item]. exact Hw.
    + cbn in Hl. destruct (IH (k + 1) cs it Hit Hcs Hl) as [Hb Hw].
      split; [cbn [length]; lia|].
      replace (Z.to_nat (indexOf_from (k + 1) l - k))
        with (S (Z.to_nat (indexOf_from (k + 1) l - (k + 1)))) by lia.
      cbn [firstn skipn app]. unfold widgets_in in *. cbn [filter is_widget_item]. exact Hw.
    + split; [cbn [length]; lia|].
      replace (k - k) with 0 by lia. cbn [Z.to_nat firstn skipn app].
      unfold widgets_in in Hl |- *. cbn [filter is_widget_item] in Hl |- *. rewrite Hit.
      destruct cs as [|c cs].
      * cbn in Hl. injection Hl as Hl'. rewrite Hl'. reflexivity.
      * cbn in Hl. inversion Hl; subst. elim Hcs. now left.
    + unfold widgets_in in Hl. cbn [filter is_widget_item] in Hl.
      destruct cs as [|c cs]; [discriminate|].
      cbn in Hl. inversion Hl as [[Hc Hl']]. subst c.
      assert (Hcs' : ~ In GapItem cs) by (intros H; apply Hcs; now right).
      destruct (IH (k + 1) cs it Hit Hcs' Hl') as [Hb Hw].
      split; [cbn [length]; lia|].
      replace (Z.to_nat (indexOf_from (k + 1) l - k))
        with (S (Z.to_nat (indexOf_from (k + 1) l - (k + 1)))) by lia.
      cbn [firstn skipn app]. unfold widgets_in in *. cbn [filter is_widget_item].
      cbn [app]. f_equal. exact Hw.
Qed.

Lemma GapItem_not_child (n m : nat) : ~ In GapItem (map ChildItem (seq n m)).
Proof. intros H. apply in_map_iff in H. destruct H as [? [? _]]. discriminate. Qed.

(** A successful append keeps [gap_last]. *)
Lemma gap_last_insert (els : list Widget) (g : ListGapWidget) (l : list LayoutItem) (w : Widget) :
  gap_last (mkList els g l) ->
  gap_last (mkList (els ++ [w]) g
              (insertWidget_at (indexOf_gap l) (ChildItem (length els)) l)).
Proof.
  unfold gap_last. cbn [_layout _elements]. intros Hl.
  destruct (insert_at_gap l 0 _ (ChildItem (length els)) eq_refl
              (GapItem_not_child 0 (length els)) Hl) as [Hb Hw].
  unfold insertWidget_at, indexOf_gap.
  replace ((indexOf_from 0 l <? 0) || (Z.of_nat (length l) <? indexOf_from 0 l)) with false
    by (symmetry; apply orb_false_iff; split; apply Z.ltb_ge; lia).
  rewrite Z.sub_0_r in Hw. rewrite Hw.
  rewrite length_app. cbn [length]. rewrite Nat.add_1_r, seq_S, map_app.
  cbn [map Nat.add]. rewrite <- app_assoc. reflexivity.
Qed.

Lemma for_each_list_add_cons (k : ListGapFlavor) (c : LanguageComponent)
    (cs : list LanguageComponent) (s : ListState Widget) :
  for_each (list_add k) (c :: cs) s =
  match build c with
  | (tb, Return w) =>
      let '(s2, (t', r)) := for_each (list_add k) cs (appended w s) in
      (s2, ((tb ++ [layoutInsertWidget (indexOf_gap (_layout s)) w;
                    postScriptChangeEvent (list_receiver k)]) ++ t', r))
  | (tb, Raise e) => (s, (tb, Raise e))
  end.
Proof.
  rewrite for_each_cons. unfold mbind at 1. rewrite list_add_unfold.
  destruct (build c) as [tb [w | e]]; reflexivity.
Qed.

(** [model()] of a list, from the models of its elements. *)
Lemma list_model (k : ListGapFlavor) (s : ListState Widget) (vs : list LanguageComponent) :
  Forall2 (fun w v => model w = Return v) (_elements s) vs ->
  model (list_widget k s) = Return (list_component k vs).
Proof.
  intros H. apply mapR_Forall2 in H.
  destruct k; cbn [list_widget list_component model]; rewrite H; reflexivity.
Qed.

(** Appends keep [gap_last], whether they return or raise. *)
Lemma for_each_gap_last (k : ListGapFlavor) (cs : list LanguageComponent) :
  forall s : ListState Widget,
    gap_last s -> gap_last (fst (for_each (list_add k) cs s)).
Proof.
  induction cs as [|c cs IH]; intros s Hs; [exact Hs|].
  rewrite for_each_list_add_cons. destruct (build c) as [tb [w | e]]; [|exact Hs].
  assert (Hw : gap_last (appended w s)) by (destruct s; now apply gap_last_insert).
  specialize (IH _ Hw).
  destruct (for_each (list_add k) cs (appended w s)) as [s2 [t' r]]. exact IH.
Qed.

(** Appends never remove or reorder what the list holds, whether they
    return or raise, and leave the gap of the list alone. *)
Lemma for_each_keeps_elements (k : ListGapFlavor) (cs : list LanguageComponent) :
  forall s : ListState Widget,
  exists ws, _elements (fst (for_each (list_add k) cs s)) = _elements s ++ ws
             /\ _gap (fst (for_each (list_add k) cs s)) = _gap s.
Proof.
  induction cs as [|c cs IH]; intros s.
  - exists []. cbn. now rewrite app_nil_r.
  - rewrite for_each_list_add_cons. destruct (build c) as [tb [w | e]].
    + destruct (IH (appended w s)) as [ws [Hws Hg]].
      destruct (for_each (list_add k) cs (appended w s)) as [s2 [t' r]].
      cbn [fst] in *. exists (w :: ws). rewrite Hws, Hg. cbn [appended _elements _gap].
      rewrite <- app_assoc. split; reflexivity.
    + exists []. cbn. now rewrite app_nil_r.
Qed.

(** Appends that all returned. *)
Lemma for_each_appended_all (k : ListGapFlavor) (cs : list LanguageComponent) :
  forall (s s' : ListState Widget) (t : list Effect),
    for_each (list_add k) cs s = (s', (t, Return tt)) -> appended_all k cs s s' t.
Proof.
  induction cs as [|c cs IH]; intros s s' t H.
  - injection H as <- <-. exists [], [].
    split; [constructor|]. split; [now rewrite app_nil_r|]. split; [reflexivity|].
    split; [|repeat split; constructor].
    intros vs Hvs. rewrite app_nil_r in Hvs. split; [now apply list_model|].
    apply Forall2_length in Hvs. cbn [length]. lia.
  - rewrite for_each_list_add_cons in H.
    destruct (build c) as [tb [w | e]] eqn:Hb; [|discriminate].
    destruct (for_each (list_add k) cs (appended w s)) as [s2 [t' r]] eqn:Hrun.
    injection H as <- <- ->.
    destruct (IH _ _ _ Hrun) as [ws' [ts [Hbuilt [Hels [Hlen [Hmodel [Ht [Hts Hn]]]]]]]].
    exists (w :: ws'),
      ((tb ++ [layoutInsertWidget (indexOf_gap (_layout s)) w;
               postScriptChangeEvent (list_receiver k)]) :: ts).
    cbn [appended _elements] in Hels, Hmodel. rewrite <- app_assoc in Hels, Hmodel.
    cbn [app] in Hels, Hmodel.
    split; [constructor; [now exists tb | exact Hbuilt]|].
    split; [exact Hels|]. split; [cbn [length]; now rewrite Hlen|].
    split; [|split; [|split]].
    + intros vs Hvs. destruct (Hmodel vs Hvs) as [Hm Hl]. split; [exact Hm|].
      rewrite Hl, length_app. cbn [length]. lia.
    + cbn [concat]. now rewrite Ht.
    + cbn [length]. now rewrite Hts.
    + cbn [map]. constructor; [|exact Hn].
      exists (tb ++ [layoutInsertWidget (indexOf_gap (_layout s)) w]).
      rewrite <- app_assoc. reflexivity.
Qed.

(** Where the gap is, when nothing before it is a gap. *)
Lemma indexOf_from_app (l1 l2 : list LayoutItem) :
  forallb (fun it => negb (is_GapItem it)) l1 = true ->
  forall i : Z, indexOf_from i (l1 ++ GapItem :: l2) = i + Z.of_nat (length l1).
Proof.
  induction l1 as [|a l1 IH]; intros H i.
  - cbn. lia.
  - cbn [forallb] in H. apply andb_true_iff in H. destruct H as [Ha H].
    cbn [app indexOf_from]. destruct (is_GapItem a); [discriminate|].
    rewrite (IH H). cbn [length]. lia.
Qed.

(** [insertWidget] at the length of a prefix puts the item right after
    the prefix. *)
Lemma insertWidget_at_app (l1 l2 : list LayoutItem) (it : LayoutItem) :
  insertWidget_at (Z.of_nat (length l1)) it (l1 ++ l2) = l1 ++ it :: l2.
Proof.
  unfold insertWidget_at.
  replace ((Z.of_nat (length l1) <? 0) || (Z.of_nat (length (l1 ++ l2)) <? Z.of_nat (length l1)))
    with false
    by (symmetry; apply orb_false_iff; split; apply Z.ltb_ge; rewrite ?length_app; lia).
  rewrite Nat2Z.id, firstn_app, skipn_app, firstn_all, skipn_all, Nat.sub_diag.
  cbn [firstn skipn app]. now rewrite app_nil_r.
Qed.

Lemma children_no_gap (n m : nat) :
  forallb (fun it => negb (is_GapItem it)) (map ChildItem (seq n m)) = true.
Proof.
  apply forallb_forall. intros x Hx. apply in_map_iff in Hx.
  destruct Hx as [j [<- _]]. reflexivity.
Qed.

(** One append puts the new child right before the gap and moves nothing
    else of the layout. *)
Lemma laid_out_appended (pre post : list LayoutItem) (w : Widget) (s : ListState Widget) :
  laid_out pre post s -> laid_out pre post (appended w s).
Proof.
  intros [Hpre Hl]. split; [exact Hpre|].
  cbn [appended _layout _elements]. rewrite Hl. unfold indexOf_gap.
  rewrite app_assoc.
  rewrite indexOf_from_app by (rewrite forallb_app, Hpre, children_no_gap; reflexivity).
  rewrite Z.add_0_l, insertWidget_at_app.
  rewrite length_app. cbn [length]. rewrite Nat.add_1_r, seq_S, map_app.
  cbn [map Nat.add]. rewrite <- !app_assoc. reflexivity.
Qed.

(** Appends keep the layout as it is around the children and the gap,
    whether they return or raise. *)
Lemma for_each_laid_out (k : ListGapFlavor) (pre post : list LayoutItem)
    (cs : list LanguageComponent) :
  forall s : ListState Widget,
    laid_out pre post s -> laid_out pre post (fst (for_each (list_add k) cs s)).
Proof.
  induction cs as [|c cs IH]; intros s Hs; [exact Hs|].
  rewrite for_each_list_add_cons. destruct (build c) as [tb [w | e]]; [|exact Hs].
  specialize (IH _ (laid_out_appended pre post w s Hs)).
  destruct (for_each (list_add k) cs (appended w s)) as [s2 [t' r]]. exact IH.
Qed.

(** One append of a component that the factory builds: the widget is
    inserted where the gap is and added to the list, and the event is posted
    last. *)
Lemma list_add_built (k : ListGapFlavor) (c : LanguageComponent) (s : ListState Widget)
    (tb : list Effect) (w : Widget) :
  build c = (tb, Return w) ->
  list_add k c s
  = (appended w s,
     (tb ++ [layoutInsertWidget (indexOf_gap (_layout s)) w;
             postScriptChangeEvent (list_receiver k)],
      Return tt)).
Proof. intros Hb. rewrite list_add_unfold, Hb. reflexivity. Qed.

(** Appends of components that the factory builds all return, and the
    list then holds the widgets built, after the ones it held. *)
Lemma for_each_returns (k : ListGapFlavor) (cs : list LanguageComponent) :
  forall (ws : list Widget) (s : ListState Widget),
    built_all cs ws ->
    exists (s' : ListState Widget) (t : list Effect),
      for_each (list_add k) cs s = (s', (t, Return tt))
      /\ _elements s' = _elements s ++ ws.
Proof.
  induction cs as [|c cs IH]; intros ws s H; inversion H as [|c' w cs' ws' [tb Hb] Hrest]; subst.
  - exists s, []. split; [reflexivity | now rewrite app_nil_r].
  - rewrite for_each_list_add_cons, Hb.
    destruct (IH _ (appended w s) Hrest) as [s' [t [Hrun Hels]]].
    rewrite Hrun. do 2 eexists. split; [reflexivity|].
    rewrite Hels. cbn [appended _elements]. now rewrite <- app_assoc.
Qed.

(** C6: one append of a component that the factory builds inserts the
    widget built where the gap is, adds it at the end of the list and ends
    by posting a [ScriptChangeEvent]; this is so for [addCommand] and for
    [addScene].  Appends of N components that the factory builds all return:
    the list then holds the N widgets built, in the order of the calls,
    after the ones it held before, [model()] returns the models of exactly
    these elements in that order (N of them on a list that was empty), and
    every call ended by posting the event.  Appending never removes or
    reorders what the list holds, also when an append raises; it keeps the
    gap after the last child, and moves nothing else of the layout. *)
Theorem append_spec (k : ListGapFlavor) (cs : list LanguageComponent) (s : ListState Widget) :
  (forall (c : LanguageComponent) (tb : list Effect) (w : Widget),
     build c = (tb, Return w) ->
     list_add k c s
     = (mkList (_elements s ++ [w]) (_gap s)
          (insertWidget_at (indexOf_gap (_layout s)) (ChildItem (length (_elements s)))
             (_layout s)),
        (tb ++ [layoutInsertWidget (indexOf_gap (_layout s)) w;
                postScriptChangeEvent (list_receiver k)],
         Return tt)))
  /\ (forall ws : list Widget,
        built_all cs ws ->
        exists (s' : ListState Widget) (t : list Effect),
          for_each (list_add k) cs s = (s', (t, Return tt))
          /\ _elements s' = _elements s ++ ws
          /\ appended_all k cs s s' t)
  /\ (exists ws, _elements (fst (for_each (list_add k) cs s)) = _elements s ++ ws
                 /\ _gap (fst (for_each (list_add k) cs s)) = _gap s)
  /\ (gap_last s -> gap_last (fst (for_each (list_add k) cs s)))
  /\ (forall pre post : list LayoutItem,
        laid_out pre post s -> laid_out pre post (fst (for_each (list_add k) cs s)))
  /\ (forall (s' : ListState Widget) (t : list Effect),
        for_each (list_add k) cs s = (s', (t, Return tt)) ->
        appended_all k cs s s' t).
Proof.
  split; [intros c tb w Hb; exact (list_add_built k c s tb w Hb)|].
  split.
  { intros ws Hws. destruct (for_each_returns k cs ws s Hws) as [s' [t [Hrun Hels]]].
    exists s', t. split; [exact Hrun|]. split; [exact Hels|].
    now apply for_each_appended_all. }
  split; [apply for_each_keeps_elements|].
  split; [apply for_each_gap_last|].
  split; [intros pre post; apply for_each_laid_out | apply for_each_appended_all].
Qed.

(** The two constructors start from a layout that satisfies [gap_last]. *)
Lemma gap_last_new :
  gap_last (mkList [] (mkListGap CommandGapWidget false) [GapItem])
  /\ gap_last (mkList [] (mkListGap SceneGapWidget false) [Spacing 10; GapItem]).
Proof. split; reflexivity. Qed.

(** A command sequence widget that its constructor returns satisfies
    [gap_last]. *)
Lemma CommandSequenceWidget_init_gap_last (commands : LanguageComponent)
    (t : list Effect) (s : ListState Widget) :
  CommandSequenceWidget_init_ build commands = (t, Return (CommandSequenceWidget s)) ->
  gap_last s.
Proof.
  destruct commands as [| | | | | | | | | | | |cs| | | | | |]; try discriminate.
  unfold CommandSequenceWidget_init_, construct.
  change (for_each (addCommand_ build) cs) with (for_each (list_add CommandGapWidget) cs).
  pose proof (for_each_gap_last CommandGapWidget cs
                (mkList [] (mkListGap CommandGapWidget false) [GapItem])) as Hlast.
  destruct (for_each (list_add CommandGapWidget) cs _) as [s1 [t1 [[] | e]]];
    cbn; intros H; inversion H; subst.
  apply Hlast. reflexivity.
Qed.

(** So does an act widget: the stretch that the constructor adds at the
    end is no widget. *)
Lemma ActWidget_init_gap_last (scenes : list LanguageComponent)
    (t : list Effect) (s : ListState Widget) :
  ActWidget_init_ build scenes = (t, Return (ActWidget s)) -> gap_last s.
Proof.
  unfold ActWidget_init_, construct, mbind.
  change (for_each (addScene_ build) scenes) with (for_each (list_add SceneGapWidget) scenes).
  pose proof (for_each_gap_last SceneGapWidget scenes
                (mkList [] (mkListGap SceneGapWidget false) [Spacing 10; GapItem])) as Hlast.
  destruct (for_each (list_add SceneGapWidget) scenes _) as [s1 [t1 [[] | e]]];
    cbn; intros H; inversion H; subst.
  specialize (Hlast eq_refl). cbn [fst] in Hlast.
  unfold gap_last, widgets_in in *. cbn [_layout _elements].
  rewrite filter_app. cbn [filter is_widget_item]. now rewrite app_nil_r.
Qed.

End Lists.

Section RoundTrip.

Context {py : PyNumber}.

(** C1: [model()] does not undo the factory on every class with a builder.
    The widget built for a difference shows "+" and has a sum as model; a
    product is refused by the factory; the model of a video scene has the
    duration as offset; and a random video from an empty collection comes
    back with the gap of a video. *)
Theorem round_trip_fails :
  round_trip (Subtract NumberGap NumberGap) = Return (Add NumberGap NumberGap)
  /\ round_trip (Multiply NumberGap NumberGap) = Raise AssertionError
  /\ round_trip (VideoScene "t" "c" NumberGap (CommandSequence []) (CommandSequence [])
                   (Add NumberGap NumberGap) VideoGap)
     = Return (VideoScene "t" "c" NumberGap (CommandSequence []) (CommandSequence [])
                 NumberGap VideoGap)
  /\ round_trip (YoutubeVideoCollectionRandom VideoCollectionGap)
     = Return (YoutubeVideoCollectionRandom VideoGap).
Proof. repeat split. Qed.

End RoundTrip.

Section RoundTripHolds.

Context {py : PyNumber}.

Lemma GapWidget_init_unfold (f : GapFlavor) (c : LanguageComponent) :
  GapWidget_init_ build f c =
  if isinstance c Gap
  then ([postScriptChangeEvent (ToGap f)], Return (mkGap f None false))
  else match build c with
       | (t, Return w) =>
           (t ++ [insertWidget 1 w; setCurrentPage 1; postScriptChangeEvent (ToGap f)],
            Return (mkGap f (Some w) false))
       | (t, Raise e) => (t, Raise e)
       end.
Proof.
  unfold GapWidget_init_, construct. change (fillGap_ build c) with (fillGap c).
  rewrite fillGap_unfold. destruct (isinstance c Gap); [reflexivity|].
  destruct (build c) as [t [w | e]]; cbn; rewrite ?app_nil_r; reflexivity.
Qed.

Lemma reads_back_not_gap (c : LanguageComponent) : reads_back c -> isinstance c Gap = false.
Proof. destruct c; simpl; intros H; try reflexivity; contradiction. Qed.

Lemma gap_builds_back (f : GapFlavor) (c : LanguageComponent) :
  in_gap (fun c => reads_back c /\ builds_back c) f c ->
  exists t g, GapWidget_init_ build f c = (t, Return g) /\ Gap_model g = Return c.
Proof.
  rewrite GapWidget_init_unfold. intros [-> | [Hc [t [w [Hb Hm]]]]].
  - destruct f; do 2 eexists; split; reflexivity.
  - rewrite (reads_back_not_gap c Hc), Hb. do 2 eexists. split; [reflexivity|].
    destruct f; exact Hm.
Qed.
Lemma except_KeyError_Return {A : Type} (m : M A) (t : list Effect) (a : A) :
  except_KeyError m = (t, Return a) <-> m = (t, Return a).
Proof.
  destruct m as [t' [a' | e]]; [tauto|].
  destruct e; simpl; split; intros H; discriminate.
Qed.

Lemma partition_title (title comment : string) :
  has_newline title = false ->
  partition_newline (title ++ newline ++ comment)%string = (title, comment).
Proof.
  induction title as [|c title IH]; intros H; [reflexivity|].
  cbn [has_newline] in H. apply orb_false_iff in H. destruct H as [Hc Ht].
  cbn [append partition_newline]. rewrite Hc, (IH Ht). reflexivity.
Qed.

Lemma name_box_currentText (name : string) :
  In name VARIABLE_NAMES -> currentText (name_box name) = name.
Proof.
  simpl. intros [<- | [<- | [<- | [<- | []]]]]; reflexivity.
Qed.

(** The elements of a list that all build back are appended one by one,
    and read back in order. *)
Lemma for_each_builds_back (k : ListGapFlavor) (cs : list LanguageComponent) :
  Forall builds_back cs ->
  forall s : ListState Widget,
  exists s' t ws,
    for_each (list_add k) cs s = (s', (t, Return tt))
    /\ _elements s' = _elements s ++ ws
    /\ Forall2 (fun w c => model w = Return c) ws cs.
Proof.
  induction 1 as [|c cs [tb [w [Hb Hm]]] Hcs IH]; intros s.
  - exists s, [], []. rewrite app_nil_r. repeat split. constructor.
  - rewrite for_each_list_add_cons, Hb.
    destruct (IH (appended w s)) as [s' [t [ws [Hrun [Hels Hall]]]]].
    rewrite Hrun. do 2 eexists. exists (w :: ws). split; [reflexivity|].
    split; [rewrite Hels; cbn [appended _elements]; now rewrite <- app_assoc|].
    now constructor.
Qed.

Lemma CommandSequence_builds_back (cs : list LanguageComponent) :
  Forall builds_back cs ->
  exists t w, CommandSequenceWidget_init_ build (CommandSequence cs) = (t, Return w)
              /\ model w = Return (CommandSequence cs).
Proof.
  intros Hcs.
  destruct (for_each_builds_back CommandGapWidget cs Hcs
              (mkList [] (mkListGap CommandGapWidget false) [GapItem]))
    as [s' [t [ws [Hrun [Hels Hall]]]]].
  unfold CommandSequenceWidget_init_, construct.
  change (for_each (addCommand_ build) cs) with (for_each (list_add CommandGapWidget) cs).
  rewrite Hrun. do 2 eexists. split; [cbn; reflexivity|].
  cbn [model]. cbn [_elements app] in Hels. rewrite Hels.
  apply mapR_Forall2 in Hall. rewrite Hall. reflexivity.
Qed.

Lemma Act_builds_back (scenes : list LanguageComponent) :
  Forall builds_back scenes ->
  exists t w, ActWidget_init_ build scenes = (t, Return w) /\ model w = Return (Act scenes).
Proof.
  intros Hcs.
  destruct (for_each_builds_back SceneGapWidget scenes Hcs
              (mkList [] (mkListGap SceneGapWidget false) [Spacing 10; GapItem]))
    as [s' [t [ws [Hrun [Hels Hall]]]]].
  unfold ActWidget_init_, construct, mbind.
  change (for_each (addScene_ build) scenes) with (for_each (list_add SceneGapWidget) scenes).
  rewrite Hrun. do 2 eexists. split; [cbn; reflexivity|].
  cbn [model _elements]. cbn [_elements app] in Hels. rewrite Hels.
  apply mapR_Forall2 in Hall. rewrite Hall. reflexivity.
Qed.

(** In a scene, the constructor of the command list is called on the
    component directly. *)
Lemma commands_build_back (c : LanguageComponent) :
  is_CommandSequence c = true ->
  builds_back c ->
  exists t w, CommandSequenceWidget_init_ build c = (t, Return w) /\ model w = Return c.
Proof.
  destruct c; try discriminate. intros _ [t [w [Hb Hm]]].
  exists t, w. split; [|exact Hm].
  cbn [build] in Hb. exact (proj1 (except_KeyError_Return _ _ _) Hb).
Qed.

(** The widget a gap or a command list is built with, and its model. *)
Ltac gap_back H g Hg Hm :=
  let t := fresh "t" in
  destruct (gap_builds_back _ _ H) as [t [g [Hg Hm]]]; unfold Gap_model in Hm.

Ltac commands_back Hseq H w Hw Hm :=
  let t := fresh "t" in
  destruct (commands_build_back _ Hseq H) as [t [w [Hw Hm]]].

(** The round trip on the components that read back: the factory builds
    a widget, and [model()] of the widget is the component. *)
Theorem reads_back_builds_back : forall lc : LanguageComponent, reads_back lc -> builds_back lc.
Proof.
  fix IH 1. intros lc.
  assert (Hgap : forall f c, in_gap reads_back f c ->
                   forall (Hsub : forall Hc : reads_back c, builds_back c),
                   in_gap (fun c => reads_back c /\ builds_back c) f c).
  { intros f c [-> | Hc] Hsub; [now left | right; split; [exact Hc | exact (Hsub Hc)]]. }
  destruct lc; cbn [reads_back]; intros H; try contradiction; unfold builds_back.
  - (* NumberValue *)
    do 2 eexists. split; [reflexivity|]. cbn. rewrite H. reflexivity.
  - (* Add *)
    destruct H as [H1 H2].
    apply Hgap in H1; [|apply IH]. apply Hgap in H2; [|apply IH].
    gap_back H1 g1 Hg1 Hm1. gap_back H2 g2 Hg2 Hm2.
    do 2 eexists. split.
    + change (build (Add lc1 lc2))
        with (except_KeyError
                (_operand1 <- GapWidget_init_ build NumberGapWidget lc1 ;;
                 _operand2 <- GapWidget_init_ build NumberGapWidget lc2 ;;
                 ret (NumberOperatorWidget _operand1 operator_box _operand2))%eff).
      rewrite Hg1. cbn [bind]. rewrite Hg2. reflexivity.
    + cbn. rewrite Hm1, Hm2. reflexivity.
  - (* TextValue *) do 2 eexists. split; reflexivity.
  - (* VideoValue *) do 2 eexists. split; reflexivity.
  - (* GetVariableExpression *)
    do 2 eexists. split; [reflexivity|]. cbn [model]. now rewrite name_box_currentText.
  - (* SetVariableStatement *)
    destruct H as [Hn Hv]. apply Hgap in Hv; [|apply IH]. gap_back Hv g Hg Hm.
    do 2 eexists. split.
    + cbn [build]. unfold SetWidget_init_. rewrite Hg. reflexivity.
    + cbn [model]. rewrite Hm. cbn [rbind]. now rewrite name_box_currentText.
  - (* CommandSequence *)
    assert (Hall : Forall builds_back commands).
    { induction commands as [|c cs IHcs]; constructor.
      - apply IH. apply H.
      - apply IHcs. apply H. }
    destruct (CommandSequence_builds_back commands Hall) as [t [w [Hw Hm]]].
    exists t, w. split; [|exact Hm]. cbn [build]. rewrite Hw. reflexivity.
  - (* TextScene *)
    destruct H as [Ht [Hd [[Hpre1 Hpre] [[Hpost1 Hpost] Htext]]]].
    apply Hgap in Hd; [|apply IH]. apply Hgap in Htext; [|apply IH].
    apply IH in Hpre. apply IH in Hpost.
    commands_back Hpre1 Hpre wpre Hwpre Hmpre.
    commands_back Hpost1 Hpost wpost Hwpost Hmpost.
    gap_back Htext g_text Hgt Hmt. gap_back Hd g_dur Hgd Hmd.
    do 2 eexists. split.
    + cbn [build]. unfold TextSceneWidget_init_.
      rewrite Hwpre. cbn [bind]. rewrite Hwpost. cbn [bind].
      rewrite Hgt. cbn [bind]. rewrite Hgd. reflexivity.
    + cbn [model]. rewrite Hmd, Hmpre, Hmpost, Hmt. cbn [rbind].
      unfold title_of, comment_of. rewrite (partition_title _ _ Ht). reflexivity.
  - (* VideoScene *)
    destruct H as [Ht [Hd [[Hpre1 Hpre] [[Hpost1 Hpost] [-> Hsrc]]]]].
    apply Hgap in Hd; [|apply IH]. apply Hgap in Hsrc; [|apply IH].
    apply IH in Hpre. apply IH in Hpost.
    commands_back Hpre1 Hpre wpre Hwpre Hmpre.
    commands_back Hpost1 Hpost wpost Hwpost Hmpost.
    gap_back Hsrc g_src Hgs Hms. gap_back Hd g_dur Hgd Hmd.
    do 2 eexists. split.
    + cbn [build]. unfold VideoSceneWidget_init_.
      rewrite Hwpre. cbn [bind]. rewrite Hwpost. cbn [bind].
      rewrite Hgs. cbn [bind]. rewrite Hgd. reflexivity.
    + cbn [model]. rewrite Hmd, Hmpre, Hmpost. cbn [rbind]. rewrite Hms. cbn [rbind].
      unfold title_of, comment_of. rewrite (partition_title _ _ Ht). reflexivity.
  - (* YoutubeVideoGetTitle *)
    apply Hgap in H; [|apply IH]. gap_back H g Hg Hm.
    do 2 eexists. split; [cbn [build]; rewrite Hg; reflexivity|].
    cbn [model]. rewrite Hm. reflexivity.
  - (* YoutubeVideoGetRelated *)
    apply Hgap in H; [|apply IH]. gap_back H g Hg Hm.
    do 2 eexists. split; [cbn [build]; rewrite Hg; reflexivity|].
    cbn [model]. rewrite Hm. reflexivity.
  - (* YoutubeVideoCollectionRandom *)
    apply Hgap in H; [|apply IH]. gap_back H g Hg Hm.
    do 2 eexists. split; [cbn [build]; rewrite Hg; reflexivity|].
    cbn [model]. rewrite Hm. reflexivity.
  - (* Act *)
    assert (Hall : Forall builds_back scenes).
    { induction scenes as [|c cs IHcs]; constructor.
      - apply IH. apply H.
      - apply IHcs. apply H. }
    destruct (Act_builds_back scenes Hall) as [t [w [Hw Hm]]].
    exists t, w. split; [|exact Hm]. cbn [build]. rewrite Hw. reflexivity.
Qed.

(** X1: the round trip holds on the components that read back: [model()]
    of the widget the factory builds for such a component is the component. *)
Corollary round_trip_reads_back (lc : LanguageComponent) :
  reads_back lc -> round_trip lc = Return lc.
Proof.
  intros H. destruct (reads_back_builds_back lc H) as [t [w [Hb Hm]]].
  unfold round_trip. rewrite Hb. exact Hm.
Qed.

End RoundTripHolds.

(** * The properties on examples *)

Section Examples.

#[local] Existing Instance whole_numbers.

(** Dropped into an act and read back, the example video scene starts at
    offset 10. *)
Example example_video_scene_round_trip :
  round_trip example_video_scene
  = Return (VideoScene "Example Video Scene"
              "Displays Gangnan Style video for 10 seconds from offset 0 seconds."
              (num 10) (CommandSequence []) (CommandSequence [])
              (num 10) (VideoValue "http://www.youtube.com/watch?v=9bZkp7q19f0")).
Proof. reflexivity. Qed.

(** Scenario D: the widget built for 2 + 3 has 2 + 3 as its model. *)
Example sum_round_trip :
  round_trip (Add (num 2) (num 3)) = Return (Add (num 2) (num 3)).
Proof. reflexivity. Qed.

(** C3 as stated fails: after [setReadOnly true] on the widget of
    (gap + gap) + gap, the two gaps of the inner sum, which fills the first
    operand gap, are not read-only and accept a number that is dragged over
    them; and the line edit of a number that fills the gap of a [SetWidget]
    stays editable. *)
Lemma setReadOnly_stops_at_occupant :
  snd (build (Add (Add NumberGap NumberGap) NumberGap))
    = Return (NumberOperatorWidget (mkGap NumberGapWidget (Some sum_of_gaps) false)
                operator_box empty_number_gap)
  /\ setReadOnly true
       (NumberOperatorWidget (mkGap NumberGapWidget (Some sum_of_gaps) false)
          operator_box empty_number_gap)
     = Return (NumberOperatorWidget (mkGap NumberGapWidget (Some sum_of_gaps) true)
                 operator_box (mkGap NumberGapWidget None true))
  /\ In empty_number_gap
       (gaps_below (NumberOperatorWidget (mkGap NumberGapWidget (Some sum_of_gaps) true)
                      operator_box (mkGap NumberGapWidget None true)))
  /\ _readOnly empty_number_gap = false
  /\ dragEnterEvent empty_number_gap (ComponentData (num 1)) = accept
  /\ setReadOnly true
       (SetWidget (name_box "item")
          (mkGap NumberGapWidget (Some (NumberValueWidget (QLineEdit_new "5"))) false))
     = Return (SetWidget (name_box "item")
                 (mkGap NumberGapWidget
                    (Some (NumberValueWidget {| text := "5"; isReadOnly := false |})) true)).
Proof. repeat split. simpl. tauto. Qed.

(** An empty number gap accepts the sum 7 + gap. *)
Lemma isAcceptable_spec_witness :
  In (acceptedCategory NumberGapWidget) (categories seven_plus_gap)
  /\ isAcceptable empty_number_gap seven_plus_gap = true.
Proof.
  split; [simpl; tauto|].
  apply (proj1 (isAcceptable_spec empty_number_gap seven_plus_gap)).
  simpl. tauto.
Defined.

(** The user picks the third entry of the operator box. *)
Lemma build_Multiply_raises_witness :
  currentText (setCurrentIndex 2 operator_box) = "*"
  /\ model (NumberOperatorWidget empty_number_gap (setCurrentIndex 2 operator_box)
              empty_number_gap)
     = Raise (KeyError "*").
Proof.
  split; [reflexivity|].
  apply (proj2 (proj2 (build_Multiply_raises NumberGap NumberGap))). reflexivity.
Defined.

(** The widget of the example video scene: 10 in the duration gap, 0 in
    the offset gap, and 10 as offset of the model. *)
Lemma VideoSceneWidget_model_offset_witness :
  Gap_model (mkGap NumberGapWidget (Some (NumberValueWidget (QLineEdit_new "10"))) false)
    = Return (num 10)
  /\ model (CommandSequenceWidget new_commands) = Return (CommandSequence [])
  /\ Gap_model (mkGap VideoGapWidget None false) = Return VideoGap
  /\ model (VideoSceneWidget "title" (CommandSequenceWidget new_commands)
              (CommandSequenceWidget new_commands)
              (mkGap VideoGapWidget None false)
              (mkGap NumberGapWidget (Some (NumberValueWidget (QLineEdit_new "10"))) false)
              (mkGap NumberGapWidget (Some (NumberValueWidget (QLineEdit_new "0"))) false))
     = Return (VideoScene "title" "" (num 10) (CommandSequence [])
                 (CommandSequence []) (num 10) VideoGap).
Proof.
  split; [reflexivity|]. split; [reflexivity|]. split; [reflexivity|].
  apply (VideoSceneWidget_model_offset "title" (CommandSequenceWidget new_commands)
           (CommandSequenceWidget new_commands) (mkGap VideoGapWidget None false)
           (mkGap NumberGapWidget (Some (NumberValueWidget (QLineEdit_new "10"))) false)
           (mkGap NumberGapWidget (Some (NumberValueWidget (QLineEdit_new "0"))) false)
           (num 10) (CommandSequence []) (CommandSequence []) VideoGap);
    reflexivity.
Defined.

(** A sum of two gaps dropped on the gap that holds 7. *)
Lemma fillGap_spec_witness :
  isinstance (Add NumberGap NumberGap) Gap = false
  /\ build (Add NumberGap NumberGap)
     = ([postScriptChangeEvent (ToGap NumberGapWidget);
         postScriptChangeEvent (ToGap NumberGapWidget)], Return sum_of_gaps)
  /\ fillGap (Add NumberGap NumberGap) (mkGap NumberGapWidget (Some seven) false)
     = (mkGap NumberGapWidget (Some sum_of_gaps) false,
        ([removeWidget seven; setParentNone seven;
          postScriptChangeEvent (ToGap NumberGapWidget);
          postScriptChangeEvent (ToGap NumberGapWidget);
          insertWidget 1 sum_of_gaps; setCurrentPage 1;
          postScriptChangeEvent (ToGap NumberGapWidget)], Return tt))
  /\ Gap_model (fst (fillGap (Add NumberGap NumberGap)
                       (mkGap NumberGapWidget (Some seven) false)))
     = Return (Add NumberGap NumberGap).
Proof.
  split; [reflexivity|]. split; [reflexivity|].
  destruct (fillGap_spec NumberGapWidget false (Some seven) (Add NumberGap NumberGap))
    as [_ [Hfill _]].
  destruct (Hfill [postScriptChangeEvent (ToGap NumberGapWidget);
                   postScriptChangeEvent (ToGap NumberGapWidget)] sum_of_gaps
              eq_refl eq_refl) as [Hstate Hmodel].
  split; [exact Hstate | exact Hmodel].
Defined.

(** Two statements appended by [addCommand] to a command sequence that
    has just been made, and the example text scene appended by [addScene]
    to an act that has just been made. *)
Lemma append_spec_witness :
  (built_all two_statements
     [SetWidget (name_box "item") empty_number_gap;
      SetWidget (name_box "curr_offset") empty_number_gap]
   /\ laid_out [] [] new_commands
   /\ (exists (s' : ListState Widget) (t : list Effect),
         for_each addCommand two_statements new_commands = (s', (t, Return tt))
         /\ _elements s'
            = [] ++ [SetWidget (name_box "item") empty_number_gap;
                     SetWidget (name_box "curr_offset") empty_number_gap]
         /\ appended_all CommandGapWidget two_statements new_commands s' t)
   /\ laid_out [] [] (fst (for_each addCommand two_statements new_commands)))
  /\ (built_all [example_text_scene] [example_text_scene_widget]
      /\ laid_out [Spacing 10] [] new_act
      /\ (exists (s' : ListState Widget) (t : list Effect),
            for_each addScene [example_text_scene] new_act = (s', (t, Return tt))
            /\ _elements s' = [] ++ [example_text_scene_widget]
            /\ appended_all SceneGapWidget [example_text_scene] new_act s' t)
      /\ laid_out [Spacing 10] [] (fst (for_each addScene [example_text_scene] new_act))).
Proof.
  assert (Hc : built_all two_statements
                 [SetWidget (name_box "item") empty_number_gap;
                  SetWidget (name_box "curr_offset") empty_number_gap]).
  { repeat constructor; eexists; reflexivity. }
  assert (Hs : built_all [example_text_scene] [example_text_scene_widget]).
  { repeat constructor; eexists; reflexivity. }
  split.
  - destruct (append_spec CommandGapWidget two_statements new_commands)
      as [_ [Hall [_ [_ [Hlay _]]]]].
    split; [exact Hc|]. split; [split; reflexivity|].
    split; [exact (Hall _ Hc) | apply Hlay; split; reflexivity].
  - destruct (append_spec SceneGapWidget [example_text_scene] new_act)
      as [_ [Hall [_ [_ [Hlay _]]]]].
    split; [exact Hs|]. split; [split; reflexivity|].
    split; [exact (Hall _ Hs) | apply Hlay; split; reflexivity].
Defined.

(** [setReadOnly true] on the widget of gap + gap. *)
Lemma setReadOnly_spec_witness :
  setReadOnly true sum_of_gaps
    = Return (NumberOperatorWidget (mkGap NumberGapWidget None true) operator_box
                (mkGap NumberGapWidget None true))
  /\ forall g event,
       In g (own_gaps (NumberOperatorWidget (mkGap NumberGapWidget None true) operator_box
                         (mkGap NumberGapWidget None true))) ->
       dragEnterEvent g event = ignore.
Proof.
  split; [reflexivity|].
  destruct (setReadOnly_spec true sum_of_gaps
              (NumberOperatorWidget (mkGap NumberGapWidget None true) operator_box
                 (mkGap NumberGapWidget None true)) eq_refl) as [_ [_ [_ [Hdrag _]]]].
  exact (Hdrag eq_refl).
Defined.

End Examples.

(** * More of the module *)

Section Induction.

Context {py : PyNumber}.

(** Induction on components, with the property for every element of a
    command sequence and of an act. *)
Lemma LanguageComponent_nested_ind (P : LanguageComponent -> Prop) :
  P NumberGap -> P TextGap -> P VideoGap -> P VideoCollectionGap ->
  (forall value, P (NumberValue value)) ->
  (forall op1 op2, P op1 -> P op2 -> P (Add op1 op2)) ->
  (forall op1 op2, P op1 -> P op2 -> P (Subtract op1 op2)) ->
  (forall op1 op2, P op1 -> P op2 -> P (Multiply op1 op2)) ->
  (forall value, P (TextValue value)) ->
  (forall value, P (VideoValue value)) ->
  (forall name, P (GetVariableExpression name)) ->
  (forall name value, P value -> P (SetVariableStatement name value)) ->
  (forall commands, Forall P commands -> P (CommandSequence commands)) ->
  (forall title comment duration pre post text,
      P duration -> P pre -> P post -> P text ->
      P (TextScene title comment duration pre post text)) ->
  (forall title comment duration pre post offset source,
      P duration -> P pre -> P post -> P offset -> P source ->
      P (VideoScene title comment duration pre post offset source)) ->
  (forall video, P video -> P (YoutubeVideoGetTitle video)) ->
  (forall video, P video -> P (YoutubeVideoGetRelated video)) ->
  (forall video_collection,
      P video_collection -> P (YoutubeVideoCollectionRandom video_collection)) ->
  (forall scenes, Forall P scenes -> P (Act scenes)) ->
  forall lc, P lc.
Proof.
  intros HNG HTG HVG HCG HN HAdd HSub HMul HT HV HGet HSet HSeq HTS HVS HYT HYR HYC HAct.
  fix IH 1. intros lc. destruct lc.
  - exact HNG.
  - exact HTG.
  - exact HVG.
  - exact HCG.
  - apply HN.
  - apply HAdd; apply IH.
  - apply HSub; apply IH.
  - apply HMul; apply IH.
  - apply HT.
  - apply HV.
  - apply HGet.
  - apply HSet; apply IH.
  - apply HSeq. induction commands as [|c cs IHcs]; constructor; [apply IH | exact IHcs].
  - apply HTS; apply IH.
  - apply HVS; apply IH.
  - apply HYT; apply IH.
  - apply HYR; apply IH.
  - apply HYC; apply IH.
  - apply HAct. induction scenes as [|c cs IHcs]; constructor; [apply IH | exact IHcs].
Qed.

End Induction.

Section Factory.

Context {py : PyNumber}.

Lemma returns_except_KeyError {A : Type} (m : M A) : returns (except_KeyError m) = returns m.
Proof. destruct m as [t [a | []]]; reflexivity. Qed.

Lemma returns_GapWidget_init (f : GapFlavor) (c : LanguageComponent) :
  returns (GapWidget_init_ build f c) = in_slot (fun c => returns (build c)) c.
Proof.
  rewrite GapWidget_init_unfold. unfold in_slot, returns.
  destruct (isinstance c Gap); [reflexivity|].
  destruct (build c) as [t [w | e]]; reflexivity.
Qed.

Lemma returns_for_each (k : ListGapFlavor) (cs : list LanguageComponent) :
  Forall (fun c => returns (build c) = buildable c) cs ->
  forall s : ListState Widget,
    returns (snd (for_each (list_add k) cs s)) = forallb buildable cs.
Proof.
  induction 1 as [|c cs Hc Hcs IH]; intros s; [reflexivity|].
  rewrite for_each_list_add_cons. cbn [forallb]. rewrite <- Hc. unfold returns at 2.
  destruct (build c) as [tb [w | e]]; cbn [snd andb]; [|reflexivity].
  rewrite <- (IH (appended w s)).
  destruct (for_each (list_add k) cs (appended w s)) as [s2 [t' r]]. reflexivity.
Qed.

Lemma returns_list_init (k : ListGapFlavor) (cs : list LanguageComponent) :
  Forall (fun c => returns (build c) = buildable c) cs ->
  returns (list_init k cs) = forallb buildable cs.
Proof.
  intros Hcs. destruct k; unfold list_init.
  - unfold CommandSequenceWidget_init_, construct.
    change (for_each (addCommand_ build) cs) with (for_each (list_add CommandGapWidget) cs).
    rewrite <- (returns_for_each CommandGapWidget cs Hcs
                  (mkList [] (mkListGap CommandGapWidget false) [GapItem])).
    destruct (for_each (list_add CommandGapWidget) cs _) as [s1 [t1 [[] | e]]]; reflexivity.
  - unfold ActWidget_init_, construct, mbind.
    change (for_each (addScene_ build) cs) with (for_each (list_add SceneGapWidget) cs).
    rewrite <- (returns_for_each SceneGapWidget cs Hcs
                  (mkList [] (mkListGap SceneGapWidget false) [Spacing 10; GapItem])).
    destruct (for_each (list_add SceneGapWidget) cs _) as [s1 [t1 [[] | e]]]; reflexivity.
Qed.

(** The commands of a scene: the constructor is called on the component
    itself. *)
Lemma returns_commands (c : LanguageComponent) :
  returns (build c) = buildable c ->
  returns (CommandSequenceWidget_init_ build c) = is_CommandSequence c && buildable c.
Proof.
  intros Hc. destruct c; try reflexivity.
  cbn [is_CommandSequence andb]. rewrite <- Hc. cbn [build].
  now rewrite returns_except_KeyError.
Qed.

(** The status of a chain of constructor calls. *)
Lemma returns_bind {A B : Type} (m : M A) (k : A -> M B) (b : bool) :
  (forall a, returns (k a) = b) -> returns (bind m k) = returns m && b.
Proof.
  intros Hk. destruct m as [t [a | e]]; [|reflexivity].
  unfold returns at 2. cbn [snd andb]. rewrite <- (Hk a). unfold bind, returns.
  destruct (k a) as [t' r]. reflexivity.
Qed.

Lemma returns_ret {A : Type} (a : A) : returns (ret a) = true.
Proof. reflexivity. Qed.

Lemma in_slot_ext (P Q : LanguageComponent -> bool) (c : LanguageComponent) :
  P c = Q c -> in_slot P c = in_slot Q c.
Proof. unfold in_slot. now intros ->. Qed.

Ltac chain :=
  repeat first
    [ rewrite returns_except_KeyError
    | erewrite returns_bind by (intros; chain; reflexivity)
    | rewrite returns_ret
    | rewrite returns_GapWidget_init
    | rewrite returns_commands by assumption ].

(** The factory returns a widget for the buildable components, and
    raises on the others. *)
Lemma returns_build (lc : LanguageComponent) : returns (build lc) = buildable lc.
Proof.
  induction lc using LanguageComponent_nested_ind; cbn [build buildable];
    try reflexivity.
  - change (NumberOperatorWidget_init_ build "+" lc1 lc2)
      with (_operand1 <- GapWidget_init_ build NumberGapWidget lc1 ;;
            _operand2 <- GapWidget_init_ build NumberGapWidget lc2 ;;
            ret (NumberOperatorWidget _operand1 operator_box _operand2))%eff.
    chain. rewrite andb_true_r.
    now rewrite (in_slot_ext _ buildable lc1 IHlc1), (in_slot_ext _ buildable lc2 IHlc2).
  - change (NumberOperatorWidget_init_ build "-" lc1 lc2)
      with (_operand1 <- GapWidget_init_ build NumberGapWidget lc1 ;;
            _operand2 <- GapWidget_init_ build NumberGapWidget lc2 ;;
            ret (NumberOperatorWidget _operand1 operator_box _operand2))%eff.
    chain. rewrite andb_true_r.
    now rewrite (in_slot_ext _ buildable lc1 IHlc1), (in_slot_ext _ buildable lc2 IHlc2).
  - unfold SetWidget_init_. chain. rewrite andb_true_r.
    now rewrite (in_slot_ext _ buildable lc IHlc).
  - rewrite returns_except_KeyError.
    exact (returns_list_init CommandGapWidget commands H).
  - unfold TextSceneWidget_init_. chain. rewrite andb_true_r.
    rewrite (in_slot_ext _ buildable lc1 IHlc1), (in_slot_ext _ buildable lc4 IHlc4).
    now rewrite !andb_assoc.
  - unfold VideoSceneWidget_init_. chain. rewrite andb_true_r.
    rewrite (in_slot_ext _ buildable lc1 IHlc1), (in_slot_ext _ buildable lc4 IHlc4),
      (in_slot_ext _ buildable lc5 IHlc5).
    now rewrite !andb_assoc.
  - chain. rewrite andb_true_r. now rewrite (in_slot_ext _ buildable lc IHlc).
  - chain. rewrite andb_true_r. now rewrite (in_slot_ext _ buildable lc IHlc).
  - chain. rewrite andb_true_r. now rewrite (in_slot_ext _ buildable lc IHlc).
  - rewrite returns_except_KeyError.
    exact (returns_list_init SceneGapWidget scenes H).
Qed.

End Factory.

Section Built.

Context {py : PyNumber}.

(** X4: The factory returns a widget exactly for the buildable components:
    it raises on a gap, on a product, on a scene whose commands are no
    command sequence, and wherever it has to build one of these for an
    element of a list or for what fills a gap. *)
Theorem build_returns_iff_buildable (lc : LanguageComponent) :
  (exists t w, build lc = (t, Return w)) <-> buildable lc = true.
Proof.
  rewrite <- returns_build. unfold returns. split.
  - intros [t [w ->]]. reflexivity.
  - destruct (build lc) as [t [w | e]]; [now exists t, w | discriminate].
Qed.

Lemma except_KeyError_not_KeyError {A : Type} (m : M A) (t : list Effect) (e : Exn) :
  except_KeyError m = (t, Raise e) -> forall key, e <> KeyError key.
Proof.
  destruct m as [t' [a | []]]; cbn; intros H key'; inversion H; discriminate.
Qed.

(** X5: The factory never raises [KeyError]: the lookup of a class without
    builder, which is the class of a gap, ends, before any widget is made,
    in a [RuntimeError] whose message is the fixed text of the factory, a
    newline, and the [KeyError] as formatted. *)
Theorem build_never_KeyError (lc : LanguageComponent) :
  (forall t e, build lc = (t, Raise e) -> forall key, e <> KeyError key)
  /\ (isinstance lc Gap = true ->
      exists formatted : string,
        build lc
        = ([], Raise (RuntimeError
                        ("Attempted to build language component with no associated builder."
                           ++ newline ++ formatted)%string))).
Proof.
  split.
  - intros t e H. destruct lc; cbn [build] in H;
      exact (except_KeyError_not_KeyError _ t e H).
  - destruct lc; cbn; intros H; try discriminate; eexists; reflexivity.
Qed.

Lemma bind_Return_inv {A B : Type} (m : M A) (k : A -> M B) (t : list Effect) (b : B) :
  bind m k = (t, Return b) ->
  exists t1 a t2, m = (t1, Return a) /\ k a = (t2, Return b) /\ t = t1 ++ t2.
Proof.
  destruct m as [t1 [a | e]]; cbn; [|discriminate].
  destruct (k a) as [t2 r] eqn:Hk. intros H. inversion H; subst.
  now exists t1, a, t2.
Qed.

Lemma ret_inv {A : Type} (a b : A) (t : list Effect) : ret a = (t, Return b) -> a = b.
Proof. intros H. now inversion H. Qed.

Lemma GapWidget_init_inv (f : GapFlavor) (c : LanguageComponent) (t : list Effect)
    (g : GapWidget Widget) :
  GapWidget_init_ build f c = (t, Return g) ->
  (isinstance c Gap = true /\ g = mkGap f None false)
  \/ (isinstance c Gap = false
      /\ exists t' w, build c = (t', Return w) /\ g = mkGap f (Some w) false).
Proof.
  rewrite GapWidget_init_unfold. destruct (isinstance c Gap).
  - intros H. inversion H. now left.
  - destruct (build c) as [t' [w | e]]; intros H; inversion H. right.
    split; [reflexivity|]. now exists t', w.
Qed.

Lemma list_init_inv (k : ListGapFlavor) (cs : list LanguageComponent)
    (t : list Effect) (w : Widget) :
  list_init k cs = (t, Return w) ->
  exists s,
    w = list_widget k s
    /\ Forall2 (fun c w => exists tb, build c = (tb, Return w)) cs (_elements s)
    /\ length (_elements s) = length cs
    /\ _gap s = mkListGap k false
    /\ gap_last s.
Proof.
  destruct k; unfold list_init.
  - unfold CommandSequenceWidget_init_, construct.
    change (for_each (addCommand_ build) cs) with (for_each (list_add CommandGapWidget) cs).
    pose proof (for_each_gap_last CommandGapWidget cs _ (proj1 gap_last_new)) as Hlast.
    destruct (for_each_keeps_elements CommandGapWidget cs
                (mkList [] (mkListGap CommandGapWidget false) [GapItem])) as [ws' [_ Hgap]].
    destruct (for_each (list_add CommandGapWidget) cs _) as [s1 [t1 [[] | e]]] eqn:Hrun;
      cbn; intros H; inversion H; subst.
    destruct (for_each_appended_all _ _ _ _ _ Hrun)
      as [ws [ts [Hbuilt [Hels [Hlen _]]]]].
    cbn [_elements app] in Hels. subst ws. exists s1.
    repeat split; [exact Hbuilt | exact Hlen | exact Hgap | exact Hlast].
  - unfold ActWidget_init_, construct, mbind.
    change (for_each (addScene_ build) cs) with (for_each (list_add SceneGapWidget) cs).
    pose proof (for_each_gap_last SceneGapWidget cs _ (proj2 gap_last_new)) as Hlast.
    destruct (for_each_keeps_elements SceneGapWidget cs
                (mkList [] (mkListGap SceneGapWidget false) [Spacing 10; GapItem]))
      as [ws' [_ Hgap]].
    destruct (for_each (list_add SceneGapWidget) cs _) as [s1 [t1 [[] | e]]] eqn:Hrun;
      cbn; intros H; inversion H; subst.
    destruct (for_each_appended_all _ _ _ _ _ Hrun)
      as [ws [ts [Hbuilt [Hels [Hlen _]]]]].
    cbn [_elements app] in Hels. subst ws. eexists. split; [reflexivity|].
    cbn [_elements _gap]. repeat split; [exact Hbuilt | exact Hlen | exact Hgap |].
    cbn [fst] in Hlast. unfold gap_last, widgets_in in *. cbn [_layout _elements].
    rewrite filter_app. cbn [filter is_widget_item]. now rewrite app_nil_r.
Qed.

(** The layout of a list that its constructor returned. *)
Lemma list_init_layout (k : ListGapFlavor) (cs : list LanguageComponent)
    (t : list Effect) (s : ListState Widget) :
  list_init k cs = (t, Return (list_widget k s)) ->
  _layout s = list_layout k (length (_elements s)).
Proof.
  destruct k; unfold list_init.
  - unfold CommandSequenceWidget_init_, construct.
    change (for_each (addCommand_ build) cs) with (for_each (list_add CommandGapWidget) cs).
    pose proof (for_each_laid_out CommandGapWidget [] [] cs
                  (mkList [] (mkListGap CommandGapWidget false) [GapItem])
                  (conj eq_refl eq_refl)) as [_ Hlay].
    destruct (for_each (list_add CommandGapWidget) cs _) as [s1 [t1 [[] | e]]];
      cbn; intros H; inversion H; subst.
    exact Hlay.
  - unfold ActWidget_init_, construct, mbind.
    change (for_each (addScene_ build) cs) with (for_each (list_add SceneGapWidget) cs).
    pose proof (for_each_laid_out SceneGapWidget [Spacing 10] [] cs
                  (mkList [] (mkListGap SceneGapWidget false) [Spacing 10; GapItem])
                  (conj eq_refl eq_refl)) as [_ Hlay].
    destruct (for_each (list_add SceneGapWidget) cs _) as [s1 [t1 [[] | e]]];
      cbn; intros H; inversion H; subst.
    cbn [fst] in Hlay. cbn [_layout _elements list_layout]. rewrite Hlay.
    cbn [app]. now rewrite <- app_assoc.
Qed.

(** The constructor of a list returns when the factory builds every
    component. *)
Lemma list_init_built (k : ListGapFlavor) (cs : list LanguageComponent) (ws : list Widget) :
  built_all cs ws ->
  exists t : list Effect,
    list_init k cs
    = (t, Return (list_widget k (mkList ws (mkListGap k false)
                                   (list_layout k (length cs))))).
Proof.
  intros Hws. pose proof (Forall2_length Hws) as Hlen.
  destruct k; unfold list_init.
  - unfold CommandSequenceWidget_init_, construct.
    change (for_each (addCommand_ build) cs) with (for_each (list_add CommandGapWidget) cs).
    destruct (for_each_returns CommandGapWidget cs ws
                (mkList [] (mkListGap CommandGapWidget false) [GapItem]) Hws)
      as [s' [t [Hrun Hels]]].
    pose proof (for_each_laid_out CommandGapWidget [] [] cs
                  (mkList [] (mkListGap CommandGapWidget false) [GapItem])
                  (conj eq_refl eq_refl)) as [_ Hlay].
    destruct (for_each_keeps_elements CommandGapWidget cs
                (mkList [] (mkListGap CommandGapWidget false) [GapItem])) as [ws' [_ Hgap]].
    rewrite Hrun in Hlay, Hgap |- *. cbn [fst] in Hlay, Hgap.
    destruct s' as [els g l]. cbn [_elements _gap _layout app] in Hels, Hlay, Hgap.
    subst els g l. cbn. rewrite Hlen. eexists. reflexivity.
  - unfold ActWidget_init_, construct, mbind.
    change (for_each (addScene_ build) cs) with (for_each (list_add SceneGapWidget) cs).
    destruct (for_each_returns SceneGapWidget cs ws
                (mkList [] (mkListGap SceneGapWidget false) [Spacing 10; GapItem]) Hws)
      as [s' [t [Hrun Hels]]].
    pose proof (for_each_laid_out SceneGapWidget [Spacing 10] [] cs
                  (mkList [] (mkListGap SceneGapWidget false) [Spacing 10; GapItem])
                  (conj eq_refl eq_refl)) as [_ Hlay].
    destruct (for_each_keeps_elements SceneGapWidget cs
                (mkList [] (mkListGap SceneGapWidget false) [Spacing 10; GapItem]))
      as [ws' [_ Hgap]].
    rewrite Hrun in Hlay, Hgap |- *. cbn [fst] in Hlay, Hgap.
    destruct s' as [els g l]. cbn [_elements _gap _layout app] in Hels, Hlay, Hgap.
    subst els g l. cbn. rewrite Hlen.
    rewrite <- (app_assoc (map ChildItem (seq 0 (length ws))) [GapItem] [Stretch 10]).
    eexists. reflexivity.
Qed.

(** X6: What the constructor of a list returns: the widgets the factory
    built for the components, in order, behind a gap that is not read-only,
    in a layout that is, for a command sequence, the children in order and
    then the gap, and for an act the spacing of 10, the children in order,
    the gap, and the stretch of 10.  The constructor returns this widget
    whenever the factory builds every component. *)
Theorem list_init_returns (k : ListGapFlavor) (cs : list LanguageComponent) :
  (forall (t : list Effect) (w : Widget),
     list_init k cs = (t, Return w) ->
     exists s,
       w = list_widget k s
       /\ built_all cs (_elements s)
       /\ length (_elements s) = length cs
       /\ _gap s = mkListGap k false
       /\ gap_last s
       /\ _layout s = list_layout k (length cs))
  /\ (forall ws : list Widget,
        built_all cs ws ->
        exists t : list Effect,
          list_init k cs
          = (t, Return (list_widget k (mkList ws (mkListGap k false)
                                         (list_layout k (length cs)))))).
Proof.
  split; [|apply list_init_built].
  intros t w Hw. destruct (list_init_inv k cs t w Hw) as [s [-> [Hb [Hlen [Hg Hlast]]]]].
  exists s. repeat split; try assumption.
  rewrite <- Hlen. exact (list_init_layout k cs t s Hw).
Qed.

End Built.

Section ReadBack.

Context {py : PyNumber}.

Lemma gap_built_well (f : GapFlavor) (c : LanguageComponent) (t : list Effect)
    (g : GapWidget Widget) :
  built_well c ->
  GapWidget_init_ build f c = (t, Return g) ->
  Gap_model_ model g = or_ValueError (back_from_gap comes_back f c)
  /\ Forall (fun g : GapWidget Widget => _readOnly g = false)
       (g :: match _child g with Some w => gaps_below w | None => [] end).
Proof.
  intros Hc Hg. unfold back_from_gap.
  destruct (GapWidget_init_inv f c t g Hg) as [[-> ->] | [-> [t' [w [Hb ->]]]]].
  - split; [destruct f; reflexivity|]. repeat constructor.
  - destruct (Hc t' w Hb) as [Hm He]. split; [destruct f; exact Hm|].
    constructor; [reflexivity | exact He].
Qed.

Lemma elements_built_well (cs : list LanguageComponent) (ws : list Widget) :
  Forall built_well cs ->
  Forall2 (fun c w => exists tb, build c = (tb, Return w)) cs ws ->
  mapR model ws = or_ValueError (mapO comes_back cs)
  /\ Forall (fun g : GapWidget Widget => _readOnly g = false) (flat_map gaps_below ws).
Proof.
  intros Hcs Hb. induction Hb as [|c w cs ws [tb Hc] Hb IH]; [split; constructor|].
  inversion Hcs as [|c' cs' Hwell Hcs']; subst.
  destruct (Hwell tb w Hc) as [Hm He]. destruct (IH Hcs') as [Hms Hes].
  split.
  - rewrite mapR_cons, Hm, Hms. cbn [mapO].
    destruct (comes_back c); [|reflexivity].
    destruct (mapO comes_back cs); reflexivity.
  - cbn [flat_map]. apply Forall_app. split; assumption.
Qed.

Lemma list_built_well (k : ListGapFlavor) (cs : list LanguageComponent) (t : list Effect)
    (w : Widget) :
  Forall built_well cs ->
  list_init k cs = (t, Return w) ->
  model w = or_ValueError (option_map (list_component k) (mapO comes_back cs))
  /\ all_editable w.
Proof.
  intros Hcs Hw. destruct (list_init_inv k cs t w Hw) as [s [-> [Hb _]]].
  destruct (elements_built_well cs (_elements s) Hcs Hb) as [Hm He].
  split.
  - destruct k; cbn [list_widget model list_component]; rewrite Hm;
      destruct (mapO comes_back cs); reflexivity.
  - destruct k; exact He.
Qed.

(** The commands of a scene. *)
Lemma commands_built_well (c : LanguageComponent) (t : list Effect) (w : Widget) :
  built_well c ->
  CommandSequenceWidget_init_ build c = (t, Return w) ->
  model w = or_ValueError (comes_back c) /\ all_editable w.
Proof.
  intros Hc Hw. apply (Hc t w). destruct c; try discriminate.
  cbn [build]. now apply except_KeyError_Return.
Qed.

Ltac take_apart H :=
  repeat match type of H with
    | except_KeyError _ = (_, Return _) => apply except_KeyError_Return in H
    | bind _ _ = (_, Return _) =>
        let t1 := fresh "t" in
        let a := fresh "a" in
        let t2 := fresh "t" in
        let Ha := fresh "Ha" in
        destruct (bind_Return_inv _ _ _ _ H) as [t1 [a [t2 [Ha [H' _]]]]];
        clear H; rename H' into H
    | ret _ = (_, Return _) => apply ret_inv in H
    end.

(** The box shows the name when it is one of the variable names, and
    nothing otherwise. *)
Lemma name_box_shows (name : string) : currentText (name_box name) = shown_name name.
Proof.
  unfold shown_name, contains, VARIABLE_NAMES, name_box, findText.
  cbn -[String.eqb]. rewrite !(String.eqb_sym name).
  destruct (String.eqb "item" name) eqn:E1;
    [apply String.eqb_eq in E1; subst; reflexivity|].
  destruct (String.eqb "curr_video" name) eqn:E2;
    [apply String.eqb_eq in E2; subst; reflexivity|].
  destruct (String.eqb "curr_duration" name) eqn:E3;
    [apply String.eqb_eq in E3; subst; reflexivity|].
  destruct (String.eqb "curr_offset" name) eqn:E4;
    [apply String.eqb_eq in E4; subst; reflexivity|].
  reflexivity.
Qed.

Ltac open_bind H g Hg H' :=
  let t1 := fresh "t" in
  let t2 := fresh "t" in
  destruct (bind_Return_inv _ _ _ _ H) as [t1 [g [t2 [Hg [H' _]]]]].

Ltac operator_case IHlc1 IHlc2 Hw :=
  let g1 := fresh "g" in
  let g2 := fresh "g" in
  let Hg1 := fresh "Hg" in
  let Hg2 := fresh "Hg" in
  let Hw1 := fresh "Hw" in
  let Hw2 := fresh "Hw" in
  let Hm1 := fresh "Hm" in
  let Hm2 := fresh "Hm" in
  let He1 := fresh "He" in
  let He2 := fresh "He" in
  apply (proj1 (except_KeyError_Return _ _ _)) in Hw;
  open_bind Hw g1 Hg1 Hw1; open_bind Hw1 g2 Hg2 Hw2;
  apply ret_inv in Hw2; subst;
  destruct (gap_built_well _ _ _ _ IHlc1 Hg1) as [Hm1 He1];
  destruct (gap_built_well _ _ _ _ IHlc2 Hg2) as [Hm2 He2];
  split;
  [ cbn [model comes_back]; change (currentText operator_box) with "+";
    cbn [lookup String.eqb Ascii.eqb Bool.eqb rbind]; cbn; rewrite Hm1, Hm2;
    repeat match goal with
      | |- context [back_from_gap ?b ?f ?c] => destruct (back_from_gap b f c)
      end; reflexivity
  | unfold all_editable; cbn [gaps_below]; apply Forall_app; split; assumption ].

Ltac youtube_case IHlc Hw :=
  let g := fresh "g" in
  let Hg := fresh "Hg" in
  let Hw1 := fresh "Hw" in
  let Hm := fresh "Hm" in
  let He := fresh "He" in
  apply (proj1 (except_KeyError_Return _ _ _)) in Hw;
  open_bind Hw g Hg Hw1; apply ret_inv in Hw1; subst;
  destruct (gap_built_well _ _ _ _ IHlc Hg) as [Hm He];
  split;
  [ cbn [model comes_back]; rewrite Hm;
    repeat match goal with
      | |- context [back_from_gap ?b ?f ?c] => destruct (back_from_gap b f c)
      end; reflexivity
  | exact He ].

Lemma built_is_well (lc : LanguageComponent) : built_well lc.
Proof.
  induction lc using LanguageComponent_nested_ind; intros t w Hw; cbn [build] in Hw;
    try discriminate.
  - (* NumberValue *)
    inversion Hw; subst. split; [|constructor]. cbn.
    destruct (float (number_text value)); reflexivity.
  - (* Add *)
    change (NumberOperatorWidget_init_ build "+" lc1 lc2)
      with (_operand1 <- GapWidget_init_ build NumberGapWidget lc1 ;;
            _operand2 <- GapWidget_init_ build NumberGapWidget lc2 ;;
            ret (NumberOperatorWidget _operand1 operator_box _operand2))%eff in Hw.
    operator_case IHlc1 IHlc2 Hw.
  - (* Subtract *)
    change (NumberOperatorWidget_init_ build "-" lc1 lc2)
      with (_operand1 <- GapWidget_init_ build NumberGapWidget lc1 ;;
            _operand2 <- GapWidget_init_ build NumberGapWidget lc2 ;;
            ret (NumberOperatorWidget _operand1 operator_box _operand2))%eff in Hw.
    operator_case IHlc1 IHlc2 Hw.
  - (* TextValue *) inversion Hw; subst. split; [reflexivity | constructor].
  - (* VideoValue *) inversion Hw; subst. split; [reflexivity | constructor].
  - (* GetVariableExpression *)
    inversion Hw; subst. split; [|constructor]. cbn [model comes_back or_ValueError].
    now rewrite name_box_shows.
  - (* SetVariableStatement *)
    unfold SetWidget_init_ in Hw. apply (proj1 (except_KeyError_Return _ _ _)) in Hw.
    open_bind Hw g Hg Hw1. apply ret_inv in Hw1. subst.
    destruct (gap_built_well _ _ _ _ IHlc Hg) as [Hm He]. split; [|exact He].
    cbn [model comes_back]. rewrite Hm, name_box_shows.
    destruct (back_from_gap comes_back NumberGapWidget lc); reflexivity.
  - (* CommandSequence *)
    apply (proj1 (except_KeyError_Return _ _ _)) in Hw.
    exact (list_built_well CommandGapWidget commands t w H Hw).
  - (* TextScene *)
    unfold TextSceneWidget_init_ in Hw. apply (proj1 (except_KeyError_Return _ _ _)) in Hw.
    open_bind Hw wpre Hpre Hw1. open_bind Hw1 wpost Hpost Hw2.
    open_bind Hw2 g_text Hgt Hw3. open_bind Hw3 g_dur Hgd Hw4.
    apply ret_inv in Hw4. subst.
    destruct (commands_built_well _ _ _ IHlc2 Hpre) as [Hmpre Hepre].
    destruct (commands_built_well _ _ _ IHlc3 Hpost) as [Hmpost Hepost].
    destruct (gap_built_well _ _ _ _ IHlc4 Hgt) as [Hmt Het].
    destruct (gap_built_well _ _ _ _ IHlc1 Hgd) as [Hmd Hed].
    split.
    + cbn [model comes_back]. rewrite Hmd, Hmpre, Hmpost, Hmt.
      destruct (back_from_gap comes_back NumberGapWidget lc1); [|reflexivity].
      destruct (comes_back lc2); [|reflexivity].
      destruct (comes_back lc3); [|reflexivity].
      destruct (back_from_gap comes_back TextGapWidget lc4); reflexivity.
    + unfold all_editable in *. cbn [gaps_below]. rewrite !Forall_app. tauto.
  - (* VideoScene *)
    unfold VideoSceneWidget_init_ in Hw. apply (proj1 (except_KeyError_Return _ _ _)) in Hw.
    open_bind Hw wpre Hpre Hw1. open_bind Hw1 wpost Hpost Hw2.
    open_bind Hw2 g_src Hgs Hw3. open_bind Hw3 g_dur Hgd Hw4. open_bind Hw4 g_off Hgo Hw5.
    apply ret_inv in Hw5. subst.
    destruct (commands_built_well _ _ _ IHlc2 Hpre) as [Hmpre Hepre].
    destruct (commands_built_well _ _ _ IHlc3 Hpost) as [Hmpost Hepost].
    destruct (gap_built_well _ _ _ _ IHlc5 Hgs) as [Hms Hes].
    destruct (gap_built_well _ _ _ _ IHlc1 Hgd) as [Hmd Hed].
    destruct (gap_built_well _ _ _ _ IHlc4 Hgo) as [Hmo Heo].
    split.
    + cbn [model comes_back]. rewrite Hmd, Hmpre, Hmpost, Hms.
      destruct (back_from_gap comes_back NumberGapWidget lc1); [|reflexivity].
      destruct (comes_back lc2); [|reflexivity].
      destruct (comes_back lc3); [|reflexivity].
      destruct (back_from_gap comes_back VideoGapWidget lc5); reflexivity.
    + unfold all_editable in *. cbn [gaps_below]. rewrite !Forall_app. tauto.
  - youtube_case IHlc Hw.
  - youtube_case IHlc Hw.
  - youtube_case IHlc Hw.
  - (* Act *)
    apply (proj1 (except_KeyError_Return _ _ _)) in Hw.
    exact (list_built_well SceneGapWidget scenes t w H Hw).
Qed.

(** X2: [model()] of a widget that the factory built for a component is the
    component that [comes_back] computes from it, and raises [ValueError],
    and nothing else, when the text of a number in it is not read by
    [float()]. *)
Theorem model_of_built (lc : LanguageComponent) (t : list Effect) (w : Widget) :
  build lc = (t, Return w) -> model w = or_ValueError (comes_back lc).
Proof. intros Hw. exact (proj1 (built_is_well lc t w Hw)). Qed.

(** X7: No gap of a widget that the factory built is read-only, however deep
    in the tree: each accepts a drag exactly when [isAcceptable] holds of the
    component that is dragged. *)
Theorem built_widgets_are_editable (lc : LanguageComponent) (t : list Effect) (w : Widget) :
  build lc = (t, Return w) ->
  forall g, In g (gaps_below w) ->
    _readOnly g = false
    /\ forall c, dragEnterEvent g (ComponentData c) = accept <-> isAcceptable g c = true.
Proof.
  intros Hw g Hg. pose proof (proj2 (built_is_well lc t w Hw)) as He.
  unfold all_editable in He. rewrite Forall_forall in He. specialize (He g Hg).
  split; [exact He|]. intros c. unfold dragEnterEvent. rewrite He. cbn.
  destruct (isAcceptable g c); split; intros H; try reflexivity; discriminate.
Qed.

(** On the components that read back, [comes_back] is the identity. *)
Lemma reads_back_comes_back (lc : LanguageComponent) :
  reads_back lc -> buildable lc = true /\ comes_back lc = Some lc.
Proof.
  intros H. destruct (reads_back_builds_back lc H) as [t [w [Hb Hm]]].
  split.
  - rewrite <- returns_build. unfold returns. now rewrite Hb.
  - pose proof (proj1 (built_is_well lc t w Hb)) as Hm'. rewrite Hm in Hm'.
    destruct (comes_back lc); [now injection Hm' as -> | discriminate].
Qed.

(** What comes back has the categories of the component. *)
Lemma comes_back_categories (lc lc' : LanguageComponent) :
  comes_back lc = Some lc' -> categories lc' = categories lc.
Proof.
  destruct lc; cbn [comes_back]; intros H;
    repeat match type of H with
      | context [match ?o with Some _ => _ | None => _ end] => destruct o; try discriminate
      | context [option_map _ ?o] => destruct o; try discriminate; cbn [option_map] in H
      end;
    try discriminate; injection H as <-; reflexivity.
Qed.

End ReadBack.

Section Stable.

Context {py : PyNumber}.

(** A number that [float()] has read is read again from its own text. *)
Hypothesis float_stable :
  forall value value' : number,
    float (number_text value) = Some value' -> float (number_text value') = Some value'.

Lemma model_of_empty_is_gap (f : GapFlavor) : isinstance (model_of_empty f) Gap = true.
Proof. destruct f; reflexivity. Qed.

Lemma gap_stable (f : GapFlavor) (c c' : LanguageComponent) :
  stable c ->
  in_slot buildable c = true ->
  back_from_gap comes_back f c = Some c' ->
  in_slot buildable c' = true /\ back_from_gap comes_back f c' = Some c'.
Proof.
  unfold in_slot, back_from_gap. intros Hc Hb Hback.
  destruct (isinstance c Gap) eqn:Hgap.
  - injection Hback as <-. rewrite model_of_empty_is_gap. split; reflexivity.
  - cbn [orb] in Hb. destruct (Hc c' Hb Hback) as [Hb' [Hc' [Hg' _]]].
    rewrite Hg', Hb'. split; [reflexivity | exact Hc'].
Qed.

Lemma elements_stable (cs : list LanguageComponent) :
  Forall stable cs ->
  forall cs', forallb buildable cs = true -> mapO comes_back cs = Some cs' ->
    forallb buildable cs' = true /\ mapO comes_back cs' = Some cs'.
Proof.
  induction 1 as [|c cs Hc Hcs IH]; intros cs' Hb Hm.
  - injection Hm as <-. split; reflexivity.
  - cbn [forallb] in Hb. apply andb_true_iff in Hb. destruct Hb as [Hbc Hbcs].
    cbn [mapO] in Hm. destruct (comes_back c) as [c'|] eqn:Hcc; [|discriminate].
    destruct (mapO comes_back cs) as [cs''|] eqn:Hmcs; [|discriminate].
    injection Hm as <-.
    destruct (Hc c' Hbc Hcc) as [Hb' [Hc' _]]. destruct (IH cs'' Hbcs eq_refl) as [Hbs' Hcs'].
    cbn [forallb mapO]. rewrite Hb', Hbs', Hc', Hcs'. split; reflexivity.
Qed.

Lemma shown_name_twice (name : string) : shown_name (shown_name name) = shown_name name.
Proof.
  unfold shown_name. destruct (contains VARIABLE_NAMES name) eqn:Hn; [now rewrite Hn|].
  reflexivity.
Qed.

Lemma partition_has_no_newline (text : string) : has_newline (title_of text) = false.
Proof.
  unfold title_of. induction text as [|c text IH]; [reflexivity|].
  cbn [partition_newline]. destruct (Ascii.eqb c (ascii_of_nat 10)) eqn:Hc; [reflexivity|].
  destruct (partition_newline text) as [before after]. cbn [fst] in *.
  cbn [has_newline]. now rewrite Hc, IH.
Qed.

Lemma title_comment_again (text : string) :
  title_of (title_of text ++ newline ++ comment_of text)%string = title_of text
  /\ comment_of (title_of text ++ newline ++ comment_of text)%string = comment_of text.
Proof.
  pose proof (partition_title (title_of text) (comment_of text)
                (partition_has_no_newline text)) as H.
  split; [unfold title_of at 1 | unfold comment_of at 1]; rewrite H; reflexivity.
Qed.

Ltac options H :=
  repeat match type of H with
    | context [match ?o with Some _ => _ | None => _ end] =>
        let E := fresh "E" in destruct o eqn:E; try discriminate
    | context [option_map _ ?o] =>
        let E := fresh "E" in destruct o eqn:E; try discriminate; cbn [option_map] in H
    end.

Lemma comes_back_stable (lc : LanguageComponent) : stable lc.
Proof.
  induction lc using LanguageComponent_nested_ind; intros lc' Hb Hc;
    cbn [buildable comes_back] in Hb, Hc; try discriminate.
  - (* NumberValue *)
    options Hc. injection Hc as <-. cbn. rewrite (float_stable _ _ E). repeat split.
  - (* Add *)
    apply andb_true_iff in Hb. destruct Hb as [Hb1 Hb2]. options Hc. injection Hc as <-.
    destruct (gap_stable _ _ _ IHlc1 Hb1 E) as [Hb1' Hc1'].
    destruct (gap_stable _ _ _ IHlc2 Hb2 E0) as [Hb2' Hc2'].
    cbn [buildable comes_back]. rewrite Hb1', Hb2', Hc1', Hc2'. repeat split.
  - (* Subtract *)
    apply andb_true_iff in Hb. destruct Hb as [Hb1 Hb2]. options Hc. injection Hc as <-.
    destruct (gap_stable _ _ _ IHlc1 Hb1 E) as [Hb1' Hc1'].
    destruct (gap_stable _ _ _ IHlc2 Hb2 E0) as [Hb2' Hc2'].
    cbn [buildable comes_back]. rewrite Hb1', Hb2', Hc1', Hc2'. repeat split.
  - (* TextValue *) injection Hc as <-. repeat split.
  - (* VideoValue *) injection Hc as <-. repeat split.
  - (* GetVariableExpression *)
    injection Hc as <-. cbn [buildable comes_back]. rewrite shown_name_twice. repeat split.
  - (* SetVariableStatement *)
    options Hc. injection Hc as <-.
    destruct (gap_stable _ _ _ IHlc Hb E) as [Hb' Hc'].
    cbn [buildable comes_back]. rewrite Hb', Hc', shown_name_twice. repeat split.
  - (* CommandSequence *)
    options Hc. injection Hc as <-.
    destruct (elements_stable commands H l Hb E) as [Hb' Hc'].
    cbn [buildable comes_back]. rewrite Hb', Hc'. repeat split.
  - (* TextScene *)
    apply andb_true_iff in Hb. destruct Hb as [Hb Hbd].
    apply andb_true_iff in Hb. destruct Hb as [Hb Hbt].
    apply andb_true_iff in Hb. destruct Hb as [Hbpre Hbpost].
    apply andb_true_iff in Hbpre. destruct Hbpre as [Hspre Hbpre].
    apply andb_true_iff in Hbpost. destruct Hbpost as [Hspost Hbpost].
    options Hc. injection Hc as <-.
    destruct (gap_stable _ _ _ IHlc1 Hbd E) as [Hb1' Hc1'].
    destruct (gap_stable _ _ _ IHlc4 Hbt E2) as [Hb4' Hc4'].
    destruct (IHlc2 _ Hbpre E0) as [Hb2' [Hc2' [_ Hs2]]].
    destruct (IHlc3 _ Hbpost E1) as [Hb3' [Hc3' [_ Hs3]]].
    cbn [buildable comes_back]. split; [|split; [|split; reflexivity]].
    + now rewrite Hb1', Hb4', Hb2', Hb3', Hs2, Hs3, Hspre, Hspost.
    + rewrite Hc1', Hc4', Hc2', Hc3'. cbn beta iota.
      now rewrite (proj1 (title_comment_again _)), (proj2 (title_comment_again _)).
  - (* VideoScene *)
    apply andb_true_iff in Hb. destruct Hb as [Hb Hbo].
    apply andb_true_iff in Hb. destruct Hb as [Hb Hbd].
    apply andb_true_iff in Hb. destruct Hb as [Hb Hbs].
    apply andb_true_iff in Hb. destruct Hb as [Hbpre Hbpost].
    apply andb_true_iff in Hbpre. destruct Hbpre as [Hspre Hbpre].
    apply andb_true_iff in Hbpost. destruct Hbpost as [Hspost Hbpost].
    options Hc. injection Hc as <-.
    destruct (gap_stable _ _ _ IHlc1 Hbd E) as [Hb1' Hc1'].
    destruct (gap_stable _ _ _ IHlc5 Hbs E2) as [Hb5' Hc5'].
    destruct (IHlc2 _ Hbpre E0) as [Hb2' [Hc2' [_ Hs2]]].
    destruct (IHlc3 _ Hbpost E1) as [Hb3' [Hc3' [_ Hs3]]].
    cbn [buildable comes_back]. split; [|split; [|split; reflexivity]].
    + now rewrite Hb1', Hb5', Hb2', Hb3', Hs2, Hs3, Hspre, Hspost.
    + rewrite Hc1', Hc5', Hc2', Hc3'. cbn beta iota.
      now rewrite (proj1 (title_comment_again _)), (proj2 (title_comment_again _)).
  - options Hc. injection Hc as <-. destruct (gap_stable _ _ _ IHlc Hb E) as [Hb' Hc'].
    cbn [buildable comes_back]. rewrite Hb', Hc'. repeat split.
  - options Hc. injection Hc as <-. destruct (gap_stable _ _ _ IHlc Hb E) as [Hb' Hc'].
    cbn [buildable comes_back]. rewrite Hb', Hc'. repeat split.
  - options Hc. injection Hc as <-. destruct (gap_stable _ _ _ IHlc Hb E) as [Hb' Hc'].
    cbn [buildable comes_back]. rewrite Hb', Hc'. repeat split.
  - (* Act *)
    options Hc. injection Hc as <-.
    destruct (elements_stable scenes H l Hb E) as [Hb' Hc'].
    cbn [buildable comes_back]. rewrite Hb', Hc'. repeat split.
Qed.

(** X3: The model of a built widget builds again and reads back as itself:
    building a widget from the model of a built widget, as a drag and a drop
    do, gives a widget with the same model. *)
Theorem round_trip_twice (lc lc' : LanguageComponent) :
  round_trip lc = Return lc' -> round_trip lc' = Return lc'.
Proof.
  unfold round_trip. destruct (build lc) as [t [w | e]] eqn:Hb; cbn [snd rbind]; [|discriminate].
  intros Hm. pose proof (proj1 (built_is_well lc t w Hb)) as Hm'. rewrite Hm in Hm'.
  destruct (comes_back lc) as [lc''|] eqn:Hc; [|discriminate]. injection Hm' as ->.
  assert (Hbl : buildable lc = true).
  { rewrite <- returns_build. unfold returns. now rewrite Hb. }
  destruct (comes_back_stable lc lc'' Hbl Hc) as [Hbl' [Hc' _]].
  rewrite <- returns_build in Hbl'. unfold returns in Hbl'.
  destruct (build lc'') as [t' [w' | e']] eqn:Hb'; [|discriminate].
  cbn [snd rbind]. rewrite (proj1 (built_is_well lc'' t' w' Hb')), Hc'. reflexivity.
Qed.

End Stable.

Section Drops.

Context {py : PyNumber}.

(** The state of a gap after a fill that returned, read off the
    component. *)
Lemma fillGap_returns (self self' : GapWidget Widget) (lc : LanguageComponent)
    (t : list Effect) :
  fillGap lc self = (self', (t, Return tt)) ->
  notifies_last (ToGap (flavor self)) (t, Return tt)
  /\ flavor self' = flavor self /\ _readOnly self' = _readOnly self
  /\ ((isinstance lc Gap = true /\ _child self' = None)
      \/ (isinstance lc Gap = false
          /\ exists tb w, build lc = (tb, Return w) /\ _child self' = Some w)).
Proof.
  destruct self as [f occupant ro]. rewrite fillGap_unfold.
  destruct (isinstance lc Gap).
  - intros H. inversion H; subst. split; [now exists (eviction occupant)|].
    repeat split. now left.
  - destruct (build lc) as [tb [w | e]] eqn:Hb; intros H; inversion H; subst. split.
    + exists (eviction occupant ++ tb ++ [insertWidget 1 w; setCurrentPage 1]).
      rewrite <- !app_assoc. reflexivity.
    + repeat split. right. split; [reflexivity|]. now exists tb, w.
Qed.

(** [fillGap] returns, with its event posted last, exactly for the gaps
    and the buildable components. *)
Lemma fillGap_notifies_iff (self : GapWidget Widget) (lc : LanguageComponent) :
  notifies_last (ToGap (flavor self)) (snd (fillGap lc self))
  <-> in_slot buildable lc = true.
Proof.
  destruct self as [f occupant ro]. rewrite fillGap_unfold. unfold in_slot.
  rewrite <- returns_build. cbn [flavor].
  destruct (isinstance lc Gap); cbn [orb snd].
  - split; [reflexivity | intros _; now exists (eviction occupant)].
  - unfold returns. destruct (build lc) as [tb [w | e]]; cbn [snd]; split.
    + reflexivity.
    + intros _. exists (eviction occupant ++ tb ++ [insertWidget 1 w; setCurrentPage 1]).
      rewrite <- !app_assoc. reflexivity.
    + intros [t Ht]. discriminate.
    + discriminate.
Qed.

(** X8: A gap answers a drag with [accept] exactly when it is not read-only,
    the drag carries a component and the gap accepts the component.  After
    the drop of an accepted component that returns, the gap has posted its
    event last; it is empty when the component was a gap and full
    otherwise; a full gap accepts its own model; and the model is the
    dropped component when that reads back. *)
Theorem drop_on_gap (self : GapWidget Widget) (event : QMimeData) :
  (dragEnterEvent self event = accept <->
   _readOnly self = false
   /\ exists lc, event = ComponentData lc /\ isAcceptable self lc = true)
  /\ forall lc m self' t,
       dragEnterEvent self (ComponentData lc) = accept ->
       dropEvent (ComponentData lc) = Some m ->
       m self = (self', (t, Return tt)) ->
       notifies_last (ToGap (flavor self)) (t, Return tt)
       /\ isFull self' = negb (isinstance lc Gap)
       /\ (forall v, isFull self' = true -> Gap_model self' = Return v ->
                     isAcceptable self' v = true)
       /\ (reads_back lc -> Gap_model self' = Return lc).
Proof.
  split.
  - unfold dragEnterEvent. destruct (_readOnly self); cbn.
    + split; [discriminate | intros [H _]; discriminate].
    + destruct event as [lc|]; cbn.
      * destruct (isAcceptable self lc) eqn:Ha.
        -- split; [|reflexivity]. intros _. split; [reflexivity|]. now exists lc.
        -- split; [discriminate|]. intros [_ [lc' [Hlc Ha']]].
           injection Hlc as <-. rewrite Ha in Ha'. discriminate.
      * split; [discriminate | intros [_ [lc [H _]]]; discriminate].
  - intros lc m self' t Hacc Hdrop Hrun. cbn in Hdrop. injection Hdrop as <-.
    assert (Ha : isAcceptable self lc = true).
    { unfold dragEnterEvent in Hacc. destruct (_readOnly self); [discriminate|].
      cbn in Hacc. now destruct (isAcceptable self lc). }
    destruct (fillGap_returns self self' lc t Hrun)
      as [Hn [Hf [_ [[Hg Hc] | [Hg [tb [w [Hb Hc]]]]]]]].
    + split; [exact Hn|]. unfold isFull. rewrite Hc, Hg. split; [reflexivity|].
      split; [discriminate|]. intros Hr. apply reads_back_not_gap in Hr.
      rewrite Hr in Hg. discriminate.
    + split; [exact Hn|]. unfold isFull. rewrite Hc, Hg. split; [reflexivity|].
      assert (Hm : Gap_model self' = or_ValueError (comes_back lc)).
      { rewrite <- (proj1 (built_is_well lc tb w Hb)). unfold Gap_model, Gap_model_.
        rewrite Hc. now destruct (flavor self'). }
      split.
      * intros v _ Hv. rewrite Hm in Hv.
        destruct (comes_back lc) as [lc'|] eqn:Hcb; [|discriminate]. injection Hv as <-.
        unfold isAcceptable, isinstance in *. rewrite Hf.
        now rewrite (comes_back_categories lc lc' Hcb).
      * intros Hr. rewrite Hm, (proj2 (reads_back_comes_back lc Hr)). reflexivity.
Qed.

(** X9: The gap of a list answers a drag with [accept] exactly when it is not
    read-only and the drag carries a statement, for a command sequence, or
    a scene, for an act.  After the drop of an accepted component that
    returns, the list has one element more, at the end, whose model the
    gap accepts; the model of the list is its old model with that model
    appended, which is the dropped component when that reads back; and
    the list has posted its event last. *)
Theorem drop_on_list (k : ListGapFlavor) (self : ListState Widget) (event : QMimeData) :
  list_flavor (_gap self) = k ->
  (List_dragEnterEvent (_gap self) event = accept <->
   list_readOnly (_gap self) = false
   /\ exists lc, event = ComponentData lc
                 /\ isinstance lc (match k with
                                   | CommandGapWidget => Statement
                                   | SceneGapWidget => Scene
                                   end) = true)
  /\ forall lc m self' t vs,
       List_dragEnterEvent (_gap self) (ComponentData lc) = accept ->
       List_dropEvent k (ComponentData lc) = Some m ->
       m self = (self', (t, Return tt)) ->
       Forall2 (fun w v => model w = Return v) (_elements self) vs ->
       notifies_last (list_receiver k) (t, Return tt)
       /\ length (_elements self') = S (length (_elements self))
       /\ (forall v, comes_back lc = Some v ->
                     model (list_widget k self') = Return (list_component k (vs ++ [v]))
                     /\ List_isAcceptable (_gap self') v = true)
       /\ (reads_back lc ->
           model (list_widget k self') = Return (list_component k (vs ++ [lc]))).
Proof.
  intros Hk. split.
  - unfold List_dragEnterEvent, List_isAcceptable. rewrite Hk.
    destruct (list_readOnly (_gap self)); cbn.
    + split; [discriminate | intros [H _]; discriminate].
    + destruct event as [lc|]; cbn.
      * destruct k.
        -- destruct (isinstance lc Statement) eqn:Ha.
           ++ split; [|reflexivity]. intros _. split; [reflexivity|]. now exists lc.
           ++ split; [discriminate|]. intros [_ [lc' [Hlc Ha']]].
              injection Hlc as <-. rewrite Ha in Ha'. discriminate.
        -- destruct (isinstance lc Scene) eqn:Ha.
           ++ split; [|reflexivity]. intros _. split; [reflexivity|]. now exists lc.
           ++ split; [discriminate|]. intros [_ [lc' [Hlc Ha']]].
              injection Hlc as <-. rewrite Ha in Ha'. discriminate.
      * split; [discriminate | intros [_ [lc [H _]]]; discriminate].
  - intros lc m self' t vs Hacc Hdrop Hrun Hvs.
    assert (Ha : List_isAcceptable (_gap self) lc = true).
    { unfold List_dragEnterEvent in Hacc. destruct (list_readOnly (_gap self)); [discriminate|].
      cbn in Hacc. now destruct (List_isAcceptable (_gap self) lc). }
    assert (Hm : m = list_add k lc) by (destruct k; cbn in Hdrop; now injection Hdrop as <-).
    subst m. rewrite list_add_unfold in Hrun.
    destruct (build lc) as [tb [w | e]] eqn:Hb; inversion Hrun; subst self' t.
    split.
    { exists (tb ++ [layoutInsertWidget (indexOf_gap (_layout self)) w]).
      rewrite <- app_assoc. reflexivity. }
    cbn [_elements _gap]. split; [rewrite length_app; cbn [length]; lia|].
    pose proof (proj1 (built_is_well lc tb w Hb)) as Hw.
    assert (Hv : forall v, comes_back lc = Some v ->
              model (list_widget k
                       (mkList (_elements self ++ [w]) (_gap self)
                          (insertWidget_at (indexOf_gap (_layout self))
                             (ChildItem (length (_elements self))) (_layout self))))
              = Return (list_component k (vs ++ [v]))).
    { intros v Hc. apply list_model. cbn [_elements]. apply Forall2_app; [exact Hvs|].
      constructor; [|constructor]. rewrite Hw, Hc. reflexivity. }
    split.
    + intros v Hc. split; [now apply Hv|].
      unfold List_isAcceptable, isinstance in *.
      now rewrite (comes_back_categories lc v Hc).
    + intros Hr. apply Hv. exact (proj2 (reads_back_comes_back lc Hr)).
Qed.

End Drops.

Section Composition.

Context {py : PyNumber}.

(** X10: [fillGap] with a gap on a full gap is [emptyGap]; and a fill that
    follows another fill, or an [emptyGap], leaves the gap in the state
    that the last fill alone leaves it in. *)
Theorem fillGap_composes (f : GapFlavor) (ro : bool) (occupant : option Widget)
    (c c' : LanguageComponent) :
  (forall w, isinstance c Gap = true ->
             fillGap c (mkGap f (Some w) ro) = emptyGap (mkGap f (Some w) ro))
  /\ fst (fillGap c (fst (fillGap c' (mkGap f occupant ro))))
     = fst (fillGap c (mkGap f occupant ro))
  /\ fst (fillGap c (fst (emptyGap (mkGap f occupant ro))))
     = fst (fillGap c (mkGap f occupant ro)).
Proof.
  assert (Hany : forall o o', fst (fillGap c (mkGap f o ro)) = fst (fillGap c (mkGap f o' ro))).
  { intros o o'. rewrite !fillGap_unfold. destruct (isinstance c Gap); [reflexivity|].
    destruct (build c) as [t [w | e]]; reflexivity. }
  split; [|split].
  - intros w Hc. rewrite fillGap_unfold, Hc. reflexivity.
  - rewrite (fillGap_unfold f ro occupant c').
    destruct (isinstance c' Gap); [apply Hany|].
    destruct (build c') as [t [w | e]]; apply Hany.
  - destruct occupant; apply Hany.
Qed.

(** X11: [setReadOnly] does not change the model of a widget, and of two calls
    in a row the second decides: the first has no part in the result. *)
Theorem setReadOnly_keeps_model (ro : bool) (w w' : Widget) :
  setReadOnly ro w = Return w' ->
  model w' = model w
  /\ (forall ro', setReadOnly ro' w' = setReadOnly ro' w)
  /\ setReadOnly ro w' = Return w'.
Proof.
  assert (Hg : forall g, Gap_model_ model (Gap_setReadOnly ro g) = Gap_model_ model g).
  { intros [[] ? ?]; reflexivity. }
  intros H. destruct w; cbn in H; inversion H; subst; cbn [model];
    rewrite ?Hg; repeat split.
Qed.

(** X12: The title of a scene is the first line of its text, and the comment
    the rest: the title has no newline; a text with a newline is the title,
    a newline and the comment; a text without is the title, with no
    comment.  The title and comment a scene widget is built with come back
    exactly when the title has one line. *)
Theorem scene_title_comment (text title comment : string) :
  has_newline (title_of text) = false
  /\ (has_newline text = true ->
      text = (title_of text ++ newline ++ comment_of text)%string)
  /\ (has_newline text = false -> title_of text = text /\ comment_of text = EmptyString)
  /\ (title_of (title ++ newline ++ comment)%string = title
      /\ comment_of (title ++ newline ++ comment)%string = comment
      <-> has_newline title = false).
Proof.
  split; [apply partition_has_no_newline|]. split; [|split].
  - unfold title_of, comment_of. induction text as [|c text IH]; [discriminate|].
    cbn [has_newline partition_newline].
    destruct (Ascii.eqb c (ascii_of_nat 10)) eqn:Hc.
    + intros _. apply Ascii.eqb_eq in Hc. subst c. reflexivity.
    + cbn [orb]. intros H. specialize (IH H).
      destruct (partition_newline text) as [before after]. cbn [fst snd] in *.
      cbn [append]. now rewrite <- IH.
  - unfold title_of, comment_of. induction text as [|c text IH]; [now split|].
    cbn [has_newline partition_newline]. intros H. apply orb_false_iff in H.
    destruct H as [Hc H]. rewrite Hc. specialize (IH H).
    destruct (partition_newline text) as [before after]. cbn [fst snd] in *.
    destruct IH as [-> ->]. now split.
  - split.
    + intros [Ht _]. rewrite <- Ht. apply partition_has_no_newline.
    + intros H. unfold title_of, comment_of. rewrite (partition_title _ _ H). now split.
Qed.

(** X13: The widget built for getting a variable shows the name when it is one
    of the variable names and nothing otherwise, and that is the name in its
    model: the name comes back exactly when it is a variable name or
    empty. *)
Theorem variable_name_shown (name : string) :
  build (GetVariableExpression name) = ([], Return (GetWidget (name_box name)))
  /\ model (GetWidget (name_box name)) = Return (GetVariableExpression (shown_name name))
  /\ (shown_name name = name <-> In name VARIABLE_NAMES \/ name = EmptyString).
Proof.
  split; [reflexivity|]. split; [cbn [model]; now rewrite name_box_shows|].
  unfold shown_name, contains. destruct (existsb (String.eqb name) VARIABLE_NAMES) eqn:Hn.
  - split; [|reflexivity]. intros _. left. apply existsb_exists in Hn.
    destruct Hn as [x [Hx Hxn]]. apply String.eqb_eq in Hxn. now subst.
  - split; [intros <-; now right|]. intros [Hin | ->]; [|reflexivity].
    assert (Ht : existsb (String.eqb name) VARIABLE_NAMES = true).
    { apply existsb_exists. exists name. split; [exact Hin | apply String.eqb_refl]. }
    rewrite Ht in Hn. discriminate.
Qed.

End Composition.

Section Traces.

Context {py : PyNumber}.

Lemma keeps_widgets_app (t t' : list Effect) :
  keeps_widgets (t ++ t') = keeps_widgets t && keeps_widgets t'.
Proof. unfold keeps_widgets. apply forallb_app. Qed.

Lemma keeps_bind {A B : Type} (m : M A) (k : A -> M B) :
  keeps_widgets (fst m) = true ->
  (forall a, keeps_widgets (fst (k a)) = true) ->
  keeps_widgets (fst (bind m k)) = true.
Proof.
  intros Hm Hk. destruct m as [t [a | e]]; [|exact Hm].
  unfold bind. specialize (Hk a). destruct (k a) as [t' r]. cbn [fst] in *.
  now rewrite keeps_widgets_app, Hm, Hk.
Qed.

Lemma keeps_except_KeyError {A : Type} (m : M A) :
  keeps_widgets (fst (except_KeyError m)) = keeps_widgets (fst m).
Proof. destruct m as [t [a | []]]; reflexivity. Qed.

Lemma keeps_GapWidget_init (f : GapFlavor) (c : LanguageComponent) :
  keeps_widgets (fst (build c)) = true ->
  keeps_widgets (fst (GapWidget_init_ build f c)) = true.
Proof.
  intros Hc. rewrite GapWidget_init_unfold. destruct (isinstance c Gap); [reflexivity|].
  destruct (build c) as [t [w | e]]; cbn [fst] in *; [|exact Hc].
  now rewrite keeps_widgets_app, Hc.
Qed.

Lemma keeps_for_each (k : ListGapFlavor) (cs : list LanguageComponent) :
  Forall (fun c => keeps_widgets (fst (build c)) = true) cs ->
  forall s : ListState Widget,
    keeps_widgets (fst (snd (for_each (list_add k) cs s))) = true.
Proof.
  induction 1 as [|c cs Hc Hcs IH]; intros s; [reflexivity|].
  rewrite for_each_list_add_cons. destruct (build c) as [tb [w | e]]; [|exact Hc].
  specialize (IH (appended w s)).
  destruct (for_each (list_add k) cs (appended w s)) as [s2 [t' r]]. cbn [fst snd] in *.
  now rewrite !keeps_widgets_app, Hc, IH.
Qed.

Lemma keeps_list_init (k : ListGapFlavor) (cs : list LanguageComponent) :
  Forall (fun c => keeps_widgets (fst (build c)) = true) cs ->
  keeps_widgets (fst (list_init k cs)) = true.
Proof.
  intros Hcs. destruct k; unfold list_init.
  - unfold CommandSequenceWidget_init_, construct.
    change (for_each (addCommand_ build) cs) with (for_each (list_add CommandGapWidget) cs).
    pose proof (keeps_for_each CommandGapWidget cs Hcs
                  (mkList [] (mkListGap CommandGapWidget false) [GapItem])) as H.
    destruct (for_each (list_add CommandGapWidget) cs _) as [s1 [t1 [[] | e]]];
      cbn [fst snd bind ret] in *; rewrite ?app_nil_r; exact H.
  - unfold ActWidget_init_, construct, mbind.
    change (for_each (addScene_ build) cs) with (for_each (list_add SceneGapWidget) cs).
    pose proof (keeps_for_each SceneGapWidget cs Hcs
                  (mkList [] (mkListGap SceneGapWidget false) [Spacing 10; GapItem])) as H.
    destruct (for_each (list_add SceneGapWidget) cs _) as [s1 [t1 [[] | e]]];
      cbn [fst snd bind ret get put] in *; rewrite ?app_nil_r; exact H.
Qed.

Lemma keeps_commands (c : LanguageComponent) :
  keeps_widgets (fst (build c)) = true ->
  keeps_widgets (fst (CommandSequenceWidget_init_ build c)) = true.
Proof.
  intros Hc. destruct c; try reflexivity.
  cbn [build] in Hc. now rewrite keeps_except_KeyError in Hc.
Qed.

Ltac keeps :=
  repeat first
    [ rewrite keeps_except_KeyError
    | apply keeps_bind; [|intros]
    | apply keeps_GapWidget_init; assumption
    | apply keeps_commands; assumption
    | reflexivity ].

Lemma build_keeps_widgets (lc : LanguageComponent) : keeps_widgets (fst (build lc)) = true.
Proof.
  induction lc using LanguageComponent_nested_ind; cbn [build]; try reflexivity.
  - change (NumberOperatorWidget_init_ build "+" lc1 lc2)
      with (_operand1 <- GapWidget_init_ build NumberGapWidget lc1 ;;
            _operand2 <- GapWidget_init_ build NumberGapWidget lc2 ;;
            ret (NumberOperatorWidget _operand1 operator_box _operand2))%eff.
    keeps.
  - change (NumberOperatorWidget_init_ build "-" lc1 lc2)
      with (_operand1 <- GapWidget_init_ build NumberGapWidget lc1 ;;
            _operand2 <- GapWidget_init_ build NumberGapWidget lc2 ;;
            ret (NumberOperatorWidget _operand1 operator_box _operand2))%eff.
    keeps.
  - unfold SetWidget_init_. keeps.
  - rewrite keeps_except_KeyError. exact (keeps_list_init CommandGapWidget commands H).
  - unfold TextSceneWidget_init_. keeps.
  - unfold VideoSceneWidget_init_. keeps.
  - keeps.
  - keeps.
  - keeps.
  - rewrite keeps_except_KeyError. exact (keeps_list_init SceneGapWidget scenes H).
Qed.

(** X14: The factory removes no widget from a gap, whether it returns or
    raises: every gap it makes is filled while it is empty.  A drop on a gap
    of a built tree removes the one widget that filled the gap, and no
    other. *)
Theorem build_never_evicts (lc : LanguageComponent) (f : GapFlavor) (ro : bool)
    (occupant : option Widget) :
  keeps_widgets (fst (build lc)) = true
  /\ filter (fun e => negb (keeps_widgets [e]))
       (fst (snd (fillGap lc (mkGap f occupant ro))))
     = eviction occupant.
Proof.
  pose proof (build_keeps_widgets lc) as Hk. split; [exact Hk|].
  assert (Hf : forall t, keeps_widgets t = true ->
                 filter (fun e => negb (keeps_widgets [e])) t = []).
  { induction t as [|e t IH]; [reflexivity|]. unfold keeps_widgets. cbn [forallb filter].
    intros H. apply andb_true_iff in H. destruct H as [He Ht]. rewrite He. cbn.
    exact (IH Ht). }
  assert (He : filter (fun e => negb (keeps_widgets [e])) (eviction occupant)
               = eviction occupant) by (destruct occupant; reflexivity).
  rewrite fillGap_unfold. destruct (isinstance lc Gap).
  - cbn [fst snd]. rewrite filter_app, He. cbn. now rewrite app_nil_r.
  - destruct (build lc) as [t [w | e]]; cbn [fst snd] in *.
    + rewrite !filter_app, He, (Hf t Hk). cbn. now rewrite app_nil_r.
    + now rewrite filter_app, He, (Hf t Hk), app_nil_r.
Qed.

(** X15: An append that raises leaves the list exactly as it was, and raises
    what the factory raised with the effects the factory had: the list has
    posted no event of its own.  An append raises exactly when the factory
    does. *)
Theorem append_raises_cleanly (k : ListGapFlavor) (c : LanguageComponent)
    (s s' : ListState Widget) (t : list Effect) (e : Exn) :
  list_add k c s = (s', (t, Raise e)) <-> build c = (t, Raise e) /\ s' = s.
Proof.
  rewrite list_add_unfold. destruct (build c) as [tb [w | e']]; split.
  - discriminate.
  - intros [H _]. discriminate.
  - intros H. inversion H. now split.
  - intros [H ->]. now inversion H.
Qed.

End Traces.

(** * More examples *)

Section MoreExamples.

#[local] Existing Instance whole_numbers.

(** Whole numbers are read back from their decimal text. *)
Lemma whole_float_text (z : Z) : whole_float (whole_text z) = Some z.
Proof.
  unfold whole_float, whole_text. rewrite NilZero.isi.
  - cbn [option_map]. now rewrite DecimalZ.of_to.
  - destruct z; cbn; try discriminate.
    intros H. injection H as H. now apply Unsigned.to_uint_nonnil in H.
  - destruct z; cbn; try discriminate.
    intros H. injection H as H. now apply Unsigned.to_uint_nonnil in H.
Defined.

Lemma whole_float_stable (value value' : Z) :
  whole_float (whole_text value) = Some value' ->
  whole_float (whole_text value') = Some value'.
Proof. intros _. apply whole_float_text. Defined.

(** A difference of 5 and a gap is buildable. *)
Lemma build_returns_iff_buildable_witness :
  buildable five_minus_gap = true /\ exists t w, build five_minus_gap = (t, Return w).
Proof.
  split; [reflexivity|].
  apply (proj2 (build_returns_iff_buildable five_minus_gap)). reflexivity.
Defined.

(** The factory on a number gap. *)
Lemma build_never_KeyError_witness :
  isinstance NumberGap Gap = true
  /\ exists formatted : string,
       build NumberGap
       = ([], Raise (RuntimeError
                       ("Attempted to build language component with no associated builder."
                          ++ newline ++ formatted)%string)).
Proof.
  split; [reflexivity|].
  apply (proj2 (build_never_KeyError NumberGap)). reflexivity.
Defined.

(** The command sequence built for two statements, and the act built
    for the example text scene. *)
Lemma list_init_returns_witness :
  (list_init CommandGapWidget two_statements
     = (fst (list_init CommandGapWidget two_statements), Return two_statements_widget)
   /\ exists s,
        two_statements_widget = list_widget CommandGapWidget s
        /\ built_all two_statements (_elements s)
        /\ length (_elements s) = length two_statements
        /\ _gap s = mkListGap CommandGapWidget false
        /\ gap_last s
        /\ _layout s = [ChildItem 0; ChildItem 1; GapItem])
  /\ (built_all [example_text_scene] [example_text_scene_widget]
      /\ exists t : list Effect,
           list_init SceneGapWidget [example_text_scene] = (t, Return one_scene_act_widget)).
Proof.
  split.
  - split; [reflexivity|].
    apply (proj1 (list_init_returns CommandGapWidget two_statements)
             (fst (list_init CommandGapWidget two_statements)) two_statements_widget).
    reflexivity.
  - assert (Hs : built_all [example_text_scene] [example_text_scene_widget]).
    { repeat constructor; eexists; reflexivity. }
    split; [exact Hs|].
    exact (proj2 (list_init_returns SceneGapWidget [example_text_scene]) _ Hs).
Defined.

(** The widget built for 5 - gap has 5 + gap as model. *)
Lemma model_of_built_witness :
  build five_minus_gap = (fst (build five_minus_gap), Return five_minus_gap_widget)
  /\ model five_minus_gap_widget = or_ValueError (comes_back five_minus_gap).
Proof.
  split; [reflexivity|].
  apply (model_of_built five_minus_gap (fst (build five_minus_gap)) five_minus_gap_widget).
  reflexivity.
Defined.

(** The second operand gap of that widget. *)
Lemma built_widgets_are_editable_witness :
  build five_minus_gap = (fst (build five_minus_gap), Return five_minus_gap_widget)
  /\ In empty_number_gap (gaps_below five_minus_gap_widget)
  /\ _readOnly empty_number_gap = false.
Proof.
  split; [reflexivity|]. split; [simpl; tauto|].
  apply (built_widgets_are_editable five_minus_gap (fst (build five_minus_gap))
           five_minus_gap_widget eq_refl empty_number_gap).
  simpl. tauto.
Defined.

(** 5 - gap comes back as 5 + gap, which comes back as itself. *)
Lemma round_trip_twice_witness :
  round_trip five_minus_gap = Return (Add (num 5) NumberGap)
  /\ round_trip (Add (num 5) NumberGap) = Return (Add (num 5) NumberGap).
Proof.
  split; [reflexivity|].
  apply (@round_trip_twice whole_numbers whole_float_stable five_minus_gap
           (Add (num 5) NumberGap)).
  reflexivity.
Defined.

(** The sum 7 + gap dropped on an empty number gap. *)
Lemma drop_on_gap_witness :
  dragEnterEvent empty_number_gap (ComponentData seven_plus_gap) = accept
  /\ reads_back seven_plus_gap
  /\ Gap_model (fst (fillGap seven_plus_gap empty_number_gap)) = Return seven_plus_gap.
Proof.
  assert (Hr : reads_back seven_plus_gap).
  { split; [right; apply whole_float_text | left; reflexivity]. }
  split; [reflexivity|]. split; [exact Hr|].
  destruct (drop_on_gap empty_number_gap (ComponentData seven_plus_gap)) as [_ Hdrop].
  apply (Hdrop seven_plus_gap (fillGap seven_plus_gap)
           (fst (fillGap seven_plus_gap empty_number_gap))
           (fst (snd (fillGap seven_plus_gap empty_number_gap)))); try reflexivity.
  exact Hr.
Defined.

(** The example text scene of the palette dropped on a new act. *)
Lemma drop_on_list_witness :
  List_dragEnterEvent (_gap new_act) (ComponentData example_text_scene) = accept
  /\ reads_back example_text_scene
  /\ model (ActWidget (fst (addScene example_text_scene new_act)))
     = Return (Act [example_text_scene]).
Proof.
  assert (Hr : reads_back example_text_scene).
  { split; [reflexivity|]. split; [right; apply whole_float_text|].
    split; [split; [reflexivity | exact I]|]. split; [split; [reflexivity | exact I]|].
    right. right. exact I. }
  split; [reflexivity|]. split; [exact Hr|].
  destruct (drop_on_list SceneGapWidget new_act (ComponentData example_text_scene) eq_refl)
    as [_ Hdrop].
  apply (Hdrop example_text_scene (addScene example_text_scene)
           (fst (addScene example_text_scene new_act))
           (fst (snd (addScene example_text_scene new_act))) []); try reflexivity.
  - constructor.
  - exact Hr.
Defined.

(** A number gap dropped on the gap that holds 7. *)
Lemma fillGap_composes_witness :
  isinstance NumberGap Gap = true
  /\ fillGap NumberGap (mkGap NumberGapWidget (Some seven) false)
     = emptyGap (mkGap NumberGapWidget (Some seven) false).
Proof.
  split; [reflexivity|].
  apply (proj1 (fillGap_composes NumberGapWidget false None NumberGap NumberGap)).
  reflexivity.
Defined.

(** [setReadOnly] on the widget of gap + gap. *)
Lemma setReadOnly_keeps_model_witness :
  setReadOnly true sum_of_gaps
    = Return (NumberOperatorWidget (mkGap NumberGapWidget None true) operator_box
                (mkGap NumberGapWidget None true))
  /\ model (NumberOperatorWidget (mkGap NumberGapWidget None true) operator_box
              (mkGap NumberGapWidget None true))
     = model sum_of_gaps.
Proof.
  split; [reflexivity|].
  apply (setReadOnly_keeps_model true sum_of_gaps). reflexivity.
Defined.

(** A title of two lines does not come back. *)
Lemma scene_title_comment_witness :
  has_newline ("one" ++ newline ++ "two")%string = true
  /\ ("one" ++ newline ++ "two")%string
     = (title_of ("one" ++ newline ++ "two") ++ newline
          ++ comment_of ("one" ++ newline ++ "two"))%string.
Proof.
  split; [reflexivity|].
  apply (proj1 (proj2 (scene_title_comment ("one" ++ newline ++ "two")
                         EmptyString EmptyString))).
  reflexivity.
Defined.

(** A variable name, and a name that is none. *)
Lemma variable_name_shown_witness :
  In "curr_video" VARIABLE_NAMES /\ shown_name "curr_video" = "curr_video".
Proof.
  split; [simpl; tauto|].
  apply (proj2 (proj2 (proj2 (variable_name_shown "curr_video")))). left. simpl. tauto.
Defined.

(** The sum 7 + gap reads back. *)
Lemma round_trip_reads_back_witness :
  reads_back seven_plus_gap /\ round_trip seven_plus_gap = Return seven_plus_gap.
Proof.
  assert (Hr : reads_back seven_plus_gap).
  { split; [right; apply whole_float_text | left; reflexivity]. }
  split; [exact Hr|]. apply (round_trip_reads_back seven_plus_gap). exact Hr.
Defined.

(** A product is not appended. *)
Lemma append_raises_cleanly_witness :
  build (Multiply NumberGap NumberGap) = ([], Raise AssertionError)
  /\ addCommand (Multiply NumberGap NumberGap) new_commands
     = (new_commands, ([], Raise AssertionError)).
Proof.
  split; [reflexivity|].
  apply (proj2 (append_raises_cleanly CommandGapWidget (Multiply NumberGap NumberGap)
                  new_commands new_commands [] AssertionError)).
  split; reflexivity.
Defined.

End MoreExamples.
